(** * African Context Plagiarism Checker: the backend, embedded and verified

    A shallow embedding of [backend/nlp_engine.py], [backend/models.py] and
    [backend/main.py].  Python values are modelled as follows.

    - [str] is a list of Unicode code points ([list Z]); [bytes] is a
      [list byte].
    - Statements run in a small monad [M] over a [World] (files, directories,
      the documents table, the log of calls to external collaborators) whose
      results record how the statement ended: normally, by [return], or by a
      raised exception.
    - Floating point results of the similarity scorer are modelled by real
      numbers.  The model gives the code's value where the floating point
      computation is exact, as it is at the inputs evaluated below; it does
      not speak of rounding at a tie, of overflow, or of embeddings that
      hold NaN or an infinity.
    - External libraries (the sentence-transformers model, pypdf, python-docx,
      [tempfile.mkdtemp], [datetime.utcnow]) are the fields of two classes,
      [NlpLibs] and [Runtime]; the results hold for every instance. *)

From Stdlib Require Import ZArith List String Ascii Lia Reals Lra.
From Stdlib.Strings Require Import Byte.
From Equations Require Import Equations.
From stdpp Require Import gmap list.
Import ListNotations.

Local Open Scope Z_scope.
#[local] Set Warnings "-register-all".

(* ===================================================================== *)
(** * Python built-ins                                                     *)
(* ===================================================================== *)

Module Py.

(** A Python [str]: its code points.  A Python [bytes]: its bytes. *)
Abbreviation str := (list Z) (only parsing).
Abbreviation bytes := (list byte) (only parsing).

(** A literal of the source, as a [str]. *)
Definition lit (s : string) : str :=
  map (fun a => Z.of_N (N_of_ascii a)) (list_ascii_of_string s).

Definition byte_val (b : byte) : Z := Z.of_N (Byte.to_N b).

(** The one-character string made of a line feed. *)
Definition newline : str := [10].

(** [c.isspace()] for one code point: the characters [str.strip()] removes
    when called without argument. *)
Definition isspace (c : Z) : bool :=
  ((9 <=? c) && (c <=? 13)) || ((28 <=? c) && (c <=? 32))
  || (c =? 133) || (c =? 160) || (c =? 5760)
  || ((8192 <=? c) && (c <=? 8202))
  || (c =? 8232) || (c =? 8233) || (c =? 8239) || (c =? 8287)
  || (c =? 12288).

Fixpoint lstrip (s : str) : str :=
  match s with
  | c :: s' => if isspace c then lstrip s' else s
  | [] => []
  end.

Definition rstrip (s : str) : str := rev (lstrip (rev s)).

(** [s.strip()] *)
Definition strip (s : str) : str := rstrip (lstrip s).

(** Truth value of a [str]: non-empty. *)
Definition truthy (s : str) : bool :=
  match s with [] => false | _ :: _ => true end.

(** [s.lower()], on the ASCII letters.  No character outside ASCII has a
    lower-case form made of the letters of [".pdf"] or [".docx"], so the
    comparisons of the source are not affected; a message that quotes a
    lowered suffix is the code's when the suffix has no capital outside
    ASCII. *)
Definition lower_char (c : Z) : Z :=
  if (65 <=? c) && (c <=? 90) then c + 32 else c.

Definition lower (s : str) : str := map lower_char s.

(** [sep.join(parts)] *)
Fixpoint join (sep : str) (parts : list str) : str :=
  match parts with
  | [] => []
  | [p] => p
  | p :: ps => p ++ sep ++ join sep ps
  end.

Definition str_eqb (a b : str) : bool := bool_decide (a = b).

(** [x in xs] for a list of strings. *)
Definition str_in (x : str) (xs : list str) : bool := existsb (str_eqb x) xs.

(** ** [bytes.decode('utf-8', errors='ignore')]

    The decoder of CPython: a well-formed sequence yields its code point; an
    invalid start byte is dropped; a sequence broken after [k] good bytes
    loses those [k] bytes; a sequence cut by the end of the data is dropped
    whole. *)
Definition is_cont (b : Z) : bool := (128 <=? b) && (b <? 192).

Fixpoint utf8_decode_ignore (s : list Z) : str :=
  match s with
  | [] => []
  | ch :: r =>
      if ch <? 128 then ch :: utf8_decode_ignore r
      else if ch <? 224 then
        if ch <? 194 then utf8_decode_ignore r
        else match r with
             | [] => []
             | ch2 :: r2 =>
                 if negb (is_cont ch2) then utf8_decode_ignore r
                 else (Z.shiftl ch 6 + ch2 - (Z.shiftl 192 6 + 128))
                        :: utf8_decode_ignore r2
             end
      else if ch <? 240 then
        match r with
        | [] => []
        | ch2 :: r2 =>
            if negb (is_cont ch2)
               || (if ch2 <? 160 then ch =? 224 else ch =? 237)
            then utf8_decode_ignore r
            else match r2 with
                 | [] => []
                 | ch3 :: r3 =>
                     if negb (is_cont ch3) then utf8_decode_ignore r2
                     else (Z.shiftl ch 12 + Z.shiftl ch2 6 + ch3
                           - (Z.shiftl 224 12 + Z.shiftl 128 6 + 128))
                            :: utf8_decode_ignore r3
                 end
        end
      else if ch <? 245 then
        match r with
        | [] => []
        | ch2 :: r2 =>
            if negb (is_cont ch2)
               || (if ch2 <? 144 then ch =? 240 else ch =? 244)
            then utf8_decode_ignore r
            else match r2 with
                 | [] => []
                 | ch3 :: r3 =>
                     if negb (is_cont ch3) then utf8_decode_ignore r2
                     else match r3 with
                          | [] => []
                          | ch4 :: r4 =>
                              if negb (is_cont ch4)
                              then utf8_decode_ignore r3
                              else (Z.shiftl ch 18 + Z.shiftl ch2 12
                                    + Z.shiftl ch3 6 + ch4
                                    - (Z.shiftl 240 18 + Z.shiftl 128 12
                                       + Z.shiftl 128 6 + 128))
                                     :: utf8_decode_ignore r4
                          end
                 end
        end
      else utf8_decode_ignore r
  end.

(** [content.decode('utf-8', errors='ignore')] *)
Definition decode (content : bytes) : str :=
  utf8_decode_ignore (map byte_val content).

(** [str(n)] for an integer. *)
Fixpoint digits (fuel : nat) (n : Z) (acc : str) : str :=
  match fuel with
  | O => acc
  | S fuel' =>
      if n <? 10 then (48 + n) :: acc
      else digits fuel' (n / 10) ((48 + n mod 10) :: acc)
  end.

Definition str_of_int (n : Z) : str :=
  if n <? 0 then 45 :: digits (Z.to_nat (- n)) (- n) []
  else digits (S (Z.to_nat n)) n [].

(** ** [repr(s)]

    The code points for which [str.isprintable()] is false, as ranges
    (Unicode 14.0, the tables of CPython 3.11): the control characters, the
    separators other than the space, the format characters, the surrogates
    and what is not assigned. *)
Definition nonprintable : list (Z * Z) :=
  [ (0x0, 0x1F); (0x7F, 0xA0); (0xAD, 0xAD); (0x378, 0x379); (0x380, 0x383);
    (0x38B, 0x38B); (0x38D, 0x38D); (0x3A2, 0x3A2); (0x530, 0x530);
    (0x557, 0x558); (0x58B, 0x58C); (0x590, 0x590); (0x5C8, 0x5CF);
    (0x5EB, 0x5EE); (0x5F5, 0x605); (0x61C, 0x61C); (0x6DD, 0x6DD);
    (0x70E, 0x70F); (0x74B, 0x74C); (0x7B2, 0x7BF); (0x7FB, 0x7FC);
    (0x82E, 0x82F); (0x83F, 0x83F); (0x85C, 0x85D); (0x85F, 0x85F);
    (0x86B, 0x86F); (0x88F, 0x897); (0x8E2, 0x8E2); (0x984, 0x984);
    (0x98D, 0x98E); (0x991, 0x992); (0x9A9, 0x9A9); (0x9B1, 0x9B1);
    (0x9B3, 0x9B5); (0x9BA, 0x9BB); (0x9C5, 0x9C6); (0x9C9, 0x9CA);
    (0x9CF, 0x9D6); (0x9D8, 0x9DB); (0x9DE, 0x9DE); (0x9E4, 0x9E5);
    (0x9FF, 0xA00); (0xA04, 0xA04); (0xA0B, 0xA0E); (0xA11, 0xA12);
    (0xA29, 0xA29); (0xA31, 0xA31); (0xA34, 0xA34); (0xA37, 0xA37);
    (0xA3A, 0xA3B); (0xA3D, 0xA3D); (0xA43, 0xA46); (0xA49, 0xA4A);
    (0xA4E, 0xA50); (0xA52, 0xA58); (0xA5D, 0xA5D); (0xA5F, 0xA65);
    (0xA77, 0xA80); (0xA84, 0xA84); (0xA8E, 0xA8E); (0xA92, 0xA92);
    (0xAA9, 0xAA9); (0xAB1, 0xAB1); (0xAB4, 0xAB4); (0xABA, 0xABB);
    (0xAC6, 0xAC6); (0xACA, 0xACA); (0xACE, 0xACF); (0xAD1, 0xADF);
    (0xAE4, 0xAE5); (0xAF2, 0xAF8); (0xB00, 0xB00); (0xB04, 0xB04);
    (0xB0D, 0xB0E); (0xB11, 0xB12); (0xB29, 0xB29); (0xB31, 0xB31);
    (0xB34, 0xB34); (0xB3A, 0xB3B); (0xB45, 0xB46); (0xB49, 0xB4A);
    (0xB4E, 0xB54); (0xB58, 0xB5B); (0xB5E, 0xB5E); (0xB64, 0xB65);
    (0xB78, 0xB81); (0xB84, 0xB84); (0xB8B, 0xB8D); (0xB91, 0xB91);
    (0xB96, 0xB98); (0xB9B, 0xB9B); (0xB9D, 0xB9D); (0xBA0, 0xBA2);
    (0xBA5, 0xBA7); (0xBAB, 0xBAD); (0xBBA, 0xBBD); (0xBC3, 0xBC5);
    (0xBC9, 0xBC9); (0xBCE, 0xBCF); (0xBD1, 0xBD6); (0xBD8, 0xBE5);
    (0xBFB, 0xBFF); (0xC0D, 0xC0D); (0xC11, 0xC11); (0xC29, 0xC29);
    (0xC3A, 0xC3B); (0xC45, 0xC45); (0xC49, 0xC49); (0xC4E, 0xC54);
    (0xC57, 0xC57); (0xC5B, 0xC5C); (0xC5E, 0xC5F); (0xC64, 0xC65);
    (0xC70, 0xC76); (0xC8D, 0xC8D); (0xC91, 0xC91); (0xCA9, 0xCA9);
    (0xCB4, 0xCB4); (0xCBA, 0xCBB); (0xCC5, 0xCC5); (0xCC9, 0xCC9);
    (0xCCE, 0xCD4); (0xCD7, 0xCDC); (0xCDF, 0xCDF); (0xCE4, 0xCE5);
    (0xCF0, 0xCF0); (0xCF3, 0xCFF); (0xD0D, 0xD0D); (0xD11, 0xD11);
    (0xD45, 0xD45); (0xD49, 0xD49); (0xD50, 0xD53); (0xD64, 0xD65);
    (0xD80, 0xD80); (0xD84, 0xD84); (0xD97, 0xD99); (0xDB2, 0xDB2);
    (0xDBC, 0xDBC); (0xDBE, 0xDBF); (0xDC7, 0xDC9); (0xDCB, 0xDCE);
    (0xDD5, 0xDD5); (0xDD7, 0xDD7); (0xDE0, 0xDE5); (0xDF0, 0xDF1);
    (0xDF5, 0xE00); (0xE3B, 0xE3E); (0xE5C, 0xE80); (0xE83, 0xE83);
    (0xE85, 0xE85); (0xE8B, 0xE8B); (0xEA4, 0xEA4); (0xEA6, 0xEA6);
    (0xEBE, 0xEBF); (0xEC5, 0xEC5); (0xEC7, 0xEC7); (0xECE, 0xECF);
    (0xEDA, 0xEDB); (0xEE0, 0xEFF); (0xF48, 0xF48); (0xF6D, 0xF70);
    (0xF98, 0xF98); (0xFBD, 0xFBD); (0xFCD, 0xFCD); (0xFDB, 0xFFF);
    (0x10C6, 0x10C6); (0x10C8, 0x10CC); (0x10CE, 0x10CF); (0x1249, 0x1249);
    (0x124E, 0x124F); (0x1257, 0x1257); (0x1259, 0x1259); (0x125E, 0x125F);
    (0x1289, 0x1289); (0x128E, 0x128F); (0x12B1, 0x12B1); (0x12B6, 0x12B7);
    (0x12BF, 0x12BF); (0x12C1, 0x12C1); (0x12C6, 0x12C7); (0x12D7, 0x12D7);
    (0x1311, 0x1311); (0x1316, 0x1317); (0x135B, 0x135C); (0x137D, 0x137F);
    (0x139A, 0x139F); (0x13F6, 0x13F7); (0x13FE, 0x13FF); (0x1680, 0x1680);
    (0x169D, 0x169F); (0x16F9, 0x16FF); (0x1716, 0x171E); (0x1737, 0x173F);
    (0x1754, 0x175F); (0x176D, 0x176D); (0x1771, 0x1771); (0x1774, 0x177F);
    (0x17DE, 0x17DF); (0x17EA, 0x17EF); (0x17FA, 0x17FF); (0x180E, 0x180E);
    (0x181A, 0x181F); (0x1879, 0x187F); (0x18AB, 0x18AF); (0x18F6, 0x18FF);
    (0x191F, 0x191F); (0x192C, 0x192F); (0x193C, 0x193F); (0x1941, 0x1943);
    (0x196E, 0x196F); (0x1975, 0x197F); (0x19AC, 0x19AF); (0x19CA, 0x19CF);
    (0x19DB, 0x19DD); (0x1A1C, 0x1A1D); (0x1A5F, 0x1A5F); (0x1A7D, 0x1A7E);
    (0x1A8A, 0x1A8F); (0x1A9A, 0x1A9F); (0x1AAE, 0x1AAF); (0x1ACF, 0x1AFF);
    (0x1B4D, 0x1B4F); (0x1B7F, 0x1B7F); (0x1BF4, 0x1BFB); (0x1C38, 0x1C3A);
    (0x1C4A, 0x1C4C); (0x1C89, 0x1C8F); (0x1CBB, 0x1CBC); (0x1CC8, 0x1CCF);
    (0x1CFB, 0x1CFF); (0x1F16, 0x1F17); (0x1F1E, 0x1F1F); (0x1F46, 0x1F47);
    (0x1F4E, 0x1F4F); (0x1F58, 0x1F58); (0x1F5A, 0x1F5A); (0x1F5C, 0x1F5C);
    (0x1F5E, 0x1F5E); (0x1F7E, 0x1F7F); (0x1FB5, 0x1FB5); (0x1FC5, 0x1FC5);
    (0x1FD4, 0x1FD5); (0x1FDC, 0x1FDC); (0x1FF0, 0x1FF1); (0x1FF5, 0x1FF5);
    (0x1FFF, 0x200F); (0x2028, 0x202F); (0x205F, 0x206F); (0x2072, 0x2073);
    (0x208F, 0x208F); (0x209D, 0x209F); (0x20C1, 0x20CF); (0x20F1, 0x20FF);
    (0x218C, 0x218F); (0x2427, 0x243F); (0x244B, 0x245F); (0x2B74, 0x2B75);
    (0x2B96, 0x2B96); (0x2CF4, 0x2CF8); (0x2D26, 0x2D26); (0x2D28, 0x2D2C);
    (0x2D2E, 0x2D2F); (0x2D68, 0x2D6E); (0x2D71, 0x2D7E); (0x2D97, 0x2D9F);
    (0x2DA7, 0x2DA7); (0x2DAF, 0x2DAF); (0x2DB7, 0x2DB7); (0x2DBF, 0x2DBF);
    (0x2DC7, 0x2DC7); (0x2DCF, 0x2DCF); (0x2DD7, 0x2DD7); (0x2DDF, 0x2DDF);
    (0x2E5E, 0x2E7F); (0x2E9A, 0x2E9A); (0x2EF4, 0x2EFF); (0x2FD6, 0x2FEF);
    (0x2FFC, 0x3000); (0x3040, 0x3040); (0x3097, 0x3098); (0x3100, 0x3104);
    (0x3130, 0x3130); (0x318F, 0x318F); (0x31E4, 0x31EF); (0x321F, 0x321F);
    (0xA48D, 0xA48F); (0xA4C7, 0xA4CF); (0xA62C, 0xA63F); (0xA6F8, 0xA6FF);
    (0xA7CB, 0xA7CF); (0xA7D2, 0xA7D2); (0xA7D4, 0xA7D4); (0xA7DA, 0xA7F1);
    (0xA82D, 0xA82F); (0xA83A, 0xA83F); (0xA878, 0xA87F); (0xA8C6, 0xA8CD);
    (0xA8DA, 0xA8DF); (0xA954, 0xA95E); (0xA97D, 0xA97F); (0xA9CE, 0xA9CE);
    (0xA9DA, 0xA9DD); (0xA9FF, 0xA9FF); (0xAA37, 0xAA3F); (0xAA4E, 0xAA4F);
    (0xAA5A, 0xAA5B); (0xAAC3, 0xAADA); (0xAAF7, 0xAB00); (0xAB07, 0xAB08);
    (0xAB0F, 0xAB10); (0xAB17, 0xAB1F); (0xAB27, 0xAB27); (0xAB2F, 0xAB2F);
    (0xAB6C, 0xAB6F); (0xABEE, 0xABEF); (0xABFA, 0xABFF); (0xD7A4, 0xD7AF);
    (0xD7C7, 0xD7CA); (0xD7FC, 0xF8FF); (0xFA6E, 0xFA6F); (0xFADA, 0xFAFF);
    (0xFB07, 0xFB12); (0xFB18, 0xFB1C); (0xFB37, 0xFB37); (0xFB3D, 0xFB3D);
    (0xFB3F, 0xFB3F); (0xFB42, 0xFB42); (0xFB45, 0xFB45); (0xFBC3, 0xFBD2);
    (0xFD90, 0xFD91); (0xFDC8, 0xFDCE); (0xFDD0, 0xFDEF); (0xFE1A, 0xFE1F);
    (0xFE53, 0xFE53); (0xFE67, 0xFE67); (0xFE6C, 0xFE6F); (0xFE75, 0xFE75);
    (0xFEFD, 0xFF00); (0xFFBF, 0xFFC1); (0xFFC8, 0xFFC9); (0xFFD0, 0xFFD1);
    (0xFFD8, 0xFFD9); (0xFFDD, 0xFFDF); (0xFFE7, 0xFFE7); (0xFFEF, 0xFFFB);
    (0xFFFE, 0xFFFF); (0x1000C, 0x1000C); (0x10027, 0x10027);
    (0x1003B, 0x1003B); (0x1003E, 0x1003E); (0x1004E, 0x1004F);
    (0x1005E, 0x1007F); (0x100FB, 0x100FF); (0x10103, 0x10106);
    (0x10134, 0x10136); (0x1018F, 0x1018F); (0x1019D, 0x1019F);
    (0x101A1, 0x101CF); (0x101FE, 0x1027F); (0x1029D, 0x1029F);
    (0x102D1, 0x102DF); (0x102FC, 0x102FF); (0x10324, 0x1032C);
    (0x1034B, 0x1034F); (0x1037B, 0x1037F); (0x1039E, 0x1039E);
    (0x103C4, 0x103C7); (0x103D6, 0x103FF); (0x1049E, 0x1049F);
    (0x104AA, 0x104AF); (0x104D4, 0x104D7); (0x104FC, 0x104FF);
    (0x10528, 0x1052F); (0x10564, 0x1056E); (0x1057B, 0x1057B);
    (0x1058B, 0x1058B); (0x10593, 0x10593); (0x10596, 0x10596);
    (0x105A2, 0x105A2); (0x105B2, 0x105B2); (0x105BA, 0x105BA);
    (0x105BD, 0x105FF); (0x10737, 0x1073F); (0x10756, 0x1075F);
    (0x10768, 0x1077F); (0x10786, 0x10786); (0x107B1, 0x107B1);
    (0x107BB, 0x107FF); (0x10806, 0x10807); (0x10809, 0x10809);
    (0x10836, 0x10836); (0x10839, 0x1083B); (0x1083D, 0x1083E);
    (0x10856, 0x10856); (0x1089F, 0x108A6); (0x108B0, 0x108DF);
    (0x108F3, 0x108F3); (0x108F6, 0x108FA); (0x1091C, 0x1091E);
    (0x1093A, 0x1093E); (0x10940, 0x1097F); (0x109B8, 0x109BB);
    (0x109D0, 0x109D1); (0x10A04, 0x10A04); (0x10A07, 0x10A0B);
    (0x10A14, 0x10A14); (0x10A18, 0x10A18); (0x10A36, 0x10A37);
    (0x10A3B, 0x10A3E); (0x10A49, 0x10A4F); (0x10A59, 0x10A5F);
    (0x10AA0, 0x10ABF); (0x10AE7, 0x10AEA); (0x10AF7, 0x10AFF);
    (0x10B36, 0x10B38); (0x10B56, 0x10B57); (0x10B73, 0x10B77);
    (0x10B92, 0x10B98); (0x10B9D, 0x10BA8); (0x10BB0, 0x10BFF);
    (0x10C49, 0x10C7F); (0x10CB3, 0x10CBF); (0x10CF3, 0x10CF9);
    (0x10D28, 0x10D2F); (0x10D3A, 0x10E5F); (0x10E7F, 0x10E7F);
    (0x10EAA, 0x10EAA); (0x10EAE, 0x10EAF); (0x10EB2, 0x10EFF);
    (0x10F28, 0x10F2F); (0x10F5A, 0x10F6F); (0x10F8A, 0x10FAF);
    (0x10FCC, 0x10FDF); (0x10FF7, 0x10FFF); (0x1104E, 0x11051);
    (0x11076, 0x1107E); (0x110BD, 0x110BD); (0x110C3, 0x110CF);
    (0x110E9, 0x110EF); (0x110FA, 0x110FF); (0x11135, 0x11135);
    (0x11148, 0x1114F); (0x11177, 0x1117F); (0x111E0, 0x111E0);
    (0x111F5, 0x111FF); (0x11212, 0x11212); (0x1123F, 0x1127F);
    (0x11287, 0x11287); (0x11289, 0x11289); (0x1128E, 0x1128E);
    (0x1129E, 0x1129E); (0x112AA, 0x112AF); (0x112EB, 0x112EF);
    (0x112FA, 0x112FF); (0x11304, 0x11304); (0x1130D, 0x1130E);
    (0x11311, 0x11312); (0x11329, 0x11329); (0x11331, 0x11331);
    (0x11334, 0x11334); (0x1133A, 0x1133A); (0x11345, 0x11346);
    (0x11349, 0x1134A); (0x1134E, 0x1134F); (0x11351, 0x11356);
    (0x11358, 0x1135C); (0x11364, 0x11365); (0x1136D, 0x1136F);
    (0x11375, 0x113FF); (0x1145C, 0x1145C); (0x11462, 0x1147F);
    (0x114C8, 0x114CF); (0x114DA, 0x1157F); (0x115B6, 0x115B7);
    (0x115DE, 0x115FF); (0x11645, 0x1164F); (0x1165A, 0x1165F);
    (0x1166D, 0x1167F); (0x116BA, 0x116BF); (0x116CA, 0x116FF);
    (0x1171B, 0x1171C); (0x1172C, 0x1172F); (0x11747, 0x117FF);
    (0x1183C, 0x1189F); (0x118F3, 0x118FE); (0x11907, 0x11908);
    (0x1190A, 0x1190B); (0x11914, 0x11914); (0x11917, 0x11917);
    (0x11936, 0x11936); (0x11939, 0x1193A); (0x11947, 0x1194F);
    (0x1195A, 0x1199F); (0x119A8, 0x119A9); (0x119D8, 0x119D9);
    (0x119E5, 0x119FF); (0x11A48, 0x11A4F); (0x11AA3, 0x11AAF);
    (0x11AF9, 0x11BFF); (0x11C09, 0x11C09); (0x11C37, 0x11C37);
    (0x11C46, 0x11C4F); (0x11C6D, 0x11C6F); (0x11C90, 0x11C91);
    (0x11CA8, 0x11CA8); (0x11CB7, 0x11CFF); (0x11D07, 0x11D07);
    (0x11D0A, 0x11D0A); (0x11D37, 0x11D39); (0x11D3B, 0x11D3B);
    (0x11D3E, 0x11D3E); (0x11D48, 0x11D4F); (0x11D5A, 0x11D5F);
    (0x11D66, 0x11D66); (0x11D69, 0x11D69); (0x11D8F, 0x11D8F);
    (0x11D92, 0x11D92); (0x11D99, 0x11D9F); (0x11DAA, 0x11EDF);
    (0x11EF9, 0x11FAF); (0x11FB1, 0x11FBF); (0x11FF2, 0x11FFE);
    (0x1239A, 0x123FF); (0x1246F, 0x1246F); (0x12475, 0x1247F);
    (0x12544, 0x12F8F); (0x12FF3, 0x12FFF); (0x1342F, 0x143FF);
    (0x14647, 0x167FF); (0x16A39, 0x16A3F); (0x16A5F, 0x16A5F);
    (0x16A6A, 0x16A6D); (0x16ABF, 0x16ABF); (0x16ACA, 0x16ACF);
    (0x16AEE, 0x16AEF); (0x16AF6, 0x16AFF); (0x16B46, 0x16B4F);
    (0x16B5A, 0x16B5A); (0x16B62, 0x16B62); (0x16B78, 0x16B7C);
    (0x16B90, 0x16E3F); (0x16E9B, 0x16EFF); (0x16F4B, 0x16F4E);
    (0x16F88, 0x16F8E); (0x16FA0, 0x16FDF); (0x16FE5, 0x16FEF);
    (0x16FF2, 0x16FFF); (0x187F8, 0x187FF); (0x18CD6, 0x18CFF);
    (0x18D09, 0x1AFEF); (0x1AFF4, 0x1AFF4); (0x1AFFC, 0x1AFFC);
    (0x1AFFF, 0x1AFFF); (0x1B123, 0x1B14F); (0x1B153, 0x1B163);
    (0x1B168, 0x1B16F); (0x1B2FC, 0x1BBFF); (0x1BC6B, 0x1BC6F);
    (0x1BC7D, 0x1BC7F); (0x1BC89, 0x1BC8F); (0x1BC9A, 0x1BC9B);
    (0x1BCA0, 0x1CEFF); (0x1CF2E, 0x1CF2F); (0x1CF47, 0x1CF4F);
    (0x1CFC4, 0x1CFFF); (0x1D0F6, 0x1D0FF); (0x1D127, 0x1D128);
    (0x1D173, 0x1D17A); (0x1D1EB, 0x1D1FF); (0x1D246, 0x1D2DF);
    (0x1D2F4, 0x1D2FF); (0x1D357, 0x1D35F); (0x1D379, 0x1D3FF);
    (0x1D455, 0x1D455); (0x1D49D, 0x1D49D); (0x1D4A0, 0x1D4A1);
    (0x1D4A3, 0x1D4A4); (0x1D4A7, 0x1D4A8); (0x1D4AD, 0x1D4AD);
    (0x1D4BA, 0x1D4BA); (0x1D4BC, 0x1D4BC); (0x1D4C4, 0x1D4C4);
    (0x1D506, 0x1D506); (0x1D50B, 0x1D50C); (0x1D515, 0x1D515);
    (0x1D51D, 0x1D51D); (0x1D53A, 0x1D53A); (0x1D53F, 0x1D53F);
    (0x1D545, 0x1D545); (0x1D547, 0x1D549); (0x1D551, 0x1D551);
    (0x1D6A6, 0x1D6A7); (0x1D7CC, 0x1D7CD); (0x1DA8C, 0x1DA9A);
    (0x1DAA0, 0x1DAA0); (0x1DAB0, 0x1DEFF); (0x1DF1F, 0x1DFFF);
    (0x1E007, 0x1E007); (0x1E019, 0x1E01A); (0x1E022, 0x1E022);
    (0x1E025, 0x1E025); (0x1E02B, 0x1E0FF); (0x1E12D, 0x1E12F);
    (0x1E13E, 0x1E13F); (0x1E14A, 0x1E14D); (0x1E150, 0x1E28F);
    (0x1E2AF, 0x1E2BF); (0x1E2FA, 0x1E2FE); (0x1E300, 0x1E7DF);
    (0x1E7E7, 0x1E7E7); (0x1E7EC, 0x1E7EC); (0x1E7EF, 0x1E7EF);
    (0x1E7FF, 0x1E7FF); (0x1E8C5, 0x1E8C6); (0x1E8D7, 0x1E8FF);
    (0x1E94C, 0x1E94F); (0x1E95A, 0x1E95D); (0x1E960, 0x1EC70);
    (0x1ECB5, 0x1ED00); (0x1ED3E, 0x1EDFF); (0x1EE04, 0x1EE04);
    (0x1EE20, 0x1EE20); (0x1EE23, 0x1EE23); (0x1EE25, 0x1EE26);
    (0x1EE28, 0x1EE28); (0x1EE33, 0x1EE33); (0x1EE38, 0x1EE38);
    (0x1EE3A, 0x1EE3A); (0x1EE3C, 0x1EE41); (0x1EE43, 0x1EE46);
    (0x1EE48, 0x1EE48); (0x1EE4A, 0x1EE4A); (0x1EE4C, 0x1EE4C);
    (0x1EE50, 0x1EE50); (0x1EE53, 0x1EE53); (0x1EE55, 0x1EE56);
    (0x1EE58, 0x1EE58); (0x1EE5A, 0x1EE5A); (0x1EE5C, 0x1EE5C);
    (0x1EE5E, 0x1EE5E); (0x1EE60, 0x1EE60); (0x1EE63, 0x1EE63);
    (0x1EE65, 0x1EE66); (0x1EE6B, 0x1EE6B); (0x1EE73, 0x1EE73);
    (0x1EE78, 0x1EE78); (0x1EE7D, 0x1EE7D); (0x1EE7F, 0x1EE7F);
    (0x1EE8A, 0x1EE8A); (0x1EE9C, 0x1EEA0); (0x1EEA4, 0x1EEA4);
    (0x1EEAA, 0x1EEAA); (0x1EEBC, 0x1EEEF); (0x1EEF2, 0x1EFFF);
    (0x1F02C, 0x1F02F); (0x1F094, 0x1F09F); (0x1F0AF, 0x1F0B0);
    (0x1F0C0, 0x1F0C0); (0x1F0D0, 0x1F0D0); (0x1F0F6, 0x1F0FF);
    (0x1F1AE, 0x1F1E5); (0x1F203, 0x1F20F); (0x1F23C, 0x1F23F);
    (0x1F249, 0x1F24F); (0x1F252, 0x1F25F); (0x1F266, 0x1F2FF);
    (0x1F6D8, 0x1F6DC); (0x1F6ED, 0x1F6EF); (0x1F6FD, 0x1F6FF);
    (0x1F774, 0x1F77F); (0x1F7D9, 0x1F7DF); (0x1F7EC, 0x1F7EF);
    (0x1F7F1, 0x1F7FF); (0x1F80C, 0x1F80F); (0x1F848, 0x1F84F);
    (0x1F85A, 0x1F85F); (0x1F888, 0x1F88F); (0x1F8AE, 0x1F8AF);
    (0x1F8B2, 0x1F8FF); (0x1FA54, 0x1FA5F); (0x1FA6E, 0x1FA6F);
    (0x1FA75, 0x1FA77); (0x1FA7D, 0x1FA7F); (0x1FA87, 0x1FA8F);
    (0x1FAAD, 0x1FAAF); (0x1FABB, 0x1FABF); (0x1FAC6, 0x1FACF);
    (0x1FADA, 0x1FADF); (0x1FAE8, 0x1FAEF); (0x1FAF7, 0x1FAFF);
    (0x1FB93, 0x1FB93); (0x1FBCB, 0x1FBEF); (0x1FBFA, 0x1FFFF);
    (0x2A6E0, 0x2A6FF); (0x2B739, 0x2B73F); (0x2B81E, 0x2B81F);
    (0x2CEA2, 0x2CEAF); (0x2EBE1, 0x2F7FF); (0x2FA1E, 0x2FFFF);
    (0x3134B, 0xE00FF); (0xE01F0, 0x10FFFF) ].

Definition isprintable (c : Z) : bool :=
  negb (existsb (fun r => (fst r <=? c) && (c <=? snd r)) nonprintable).

Definition hex_digit (n : Z) : Z := if n <? 10 then 48 + n else 87 + n.

(** [n] in [k] lower-case hexadecimal digits. *)
Fixpoint hex_fixed (k : nat) (n : Z) : str :=
  match k with
  | O => []
  | S k' => hex_fixed k' (n / 16) ++ [hex_digit (n mod 16)]
  end.

(** One character inside the quotes: the quote in use and the backslash are
    escaped, so are tab, line feed and carriage return; what is not
    printable is written [\xhh], [\uhhhh] or [\Uhhhhhhhh]. *)
Definition repr_char (quote c : Z) : str :=
  if (c =? quote) || (c =? 92) then [92; c]
  else if c =? 9 then [92; 116]
  else if c =? 10 then [92; 110]
  else if c =? 13 then [92; 114]
  else if (c <? 32) || (c =? 127) then [92; 120] ++ hex_fixed 2 c
  else if c <? 127 then [c]
  else if isprintable c then [c]
  else if c <? 256 then [92; 120] ++ hex_fixed 2 c
  else if c <? 65536 then [92; 117] ++ hex_fixed 4 c
  else [92; 85] ++ hex_fixed 8 c.

(** [repr(s)]: single quotes, unless [s] holds a single quote and no double
    quote. *)
Definition repr (s : str) : str :=
  let quote :=
    if existsb (Z.eqb 39) s && negb (existsb (Z.eqb 34) s) then 34 else 39 in
  [quote] ++ flat_map (repr_char quote) s ++ [quote].

End Py.

(* ===================================================================== *)
(** * [hashlib.sha256]                                                     *)
(* ===================================================================== *)

(** SHA-256 (FIPS 180-4) on 32-bit words held in [Z]. *)
Module Sha256.

Definition w32 (x : Z) : Z := Z.land x 0xFFFFFFFF.
Definition add32 (x y : Z) : Z := w32 (x + y).
Definition rotr (n x : Z) : Z :=
  Z.lor (Z.shiftr x n) (w32 (Z.shiftl x (32 - n))).
Definition shr (n x : Z) : Z := Z.shiftr x n.

Definition Ch (x y z : Z) : Z :=
  Z.lxor (Z.land x y) (Z.land (Z.lxor x 0xFFFFFFFF) z).
Definition Maj (x y z : Z) : Z :=
  Z.lxor (Z.lxor (Z.land x y) (Z.land x z)) (Z.land y z).
Definition bsig0 (x : Z) : Z := Z.lxor (Z.lxor (rotr 2 x) (rotr 13 x)) (rotr 22 x).
Definition bsig1 (x : Z) : Z := Z.lxor (Z.lxor (rotr 6 x) (rotr 11 x)) (rotr 25 x).
Definition ssig0 (x : Z) : Z := Z.lxor (Z.lxor (rotr 7 x) (rotr 18 x)) (shr 3 x).
Definition ssig1 (x : Z) : Z := Z.lxor (Z.lxor (rotr 17 x) (rotr 19 x)) (shr 10 x).

(** The constants are defined as FIPS 180-4 defines them: the first 32 bits
    of the fractional parts of the cube roots (round constants) and of the
    square roots (initial state) of the first primes. *)
Definition is_prime (p : Z) : bool :=
  (1 <? p)
  && forallb (fun d => negb (p mod d =? 0))
             (map Z.of_nat (seq 2 (Z.to_nat p - 2))).

Definition primes : list Z :=
  Eval vm_compute in filter is_prime (map Z.of_nat (seq 2 310)).

(** The largest [r] below [2 ^ bits] with [r ^ k <= n], bit by bit. *)
Fixpoint iroot (k : Z) (bits : nat) (n r : Z) : Z :=
  match bits with
  | O => r
  | S b =>
      let r' := r + 2 ^ Z.of_nat b in
      iroot k b n (if r' ^ k <=? n then r' else r)
  end.

Definition frac_root_bits (k p : Z) : Z :=
  iroot k 40 (p * 2 ^ (32 * k)) 0 mod 2 ^ 32.

Definition K : list Z := Eval vm_compute in map (frac_root_bits 3) primes.

(** The eight working words. *)
Record state := State {
  h0 : Z; h1 : Z; h2 : Z; h3 : Z; h4 : Z; h5 : Z; h6 : Z; h7 : Z }.

Definition state_of_list (l : list Z) : state :=
  State (nth 0 l 0) (nth 1 l 0) (nth 2 l 0) (nth 3 l 0)
        (nth 4 l 0) (nth 5 l 0) (nth 6 l 0) (nth 7 l 0).

Definition init : state :=
  Eval vm_compute in state_of_list (map (frac_root_bits 2) (firstn 8 primes)).

(** Padding: a [0x80] byte, zeros up to 56 modulo 64, the bit length on
    eight bytes, most significant first. *)
Definition be_bytes (n : nat) (x : Z) : list Z :=
  map (fun i => Z.land (Z.shiftr x (8 * Z.of_nat i)) 0xFF) (rev (seq 0 n)).

Definition pad (msg : list Z) : list Z :=
  let len := Z.of_nat (length msg) in
  msg ++ [0x80] ++ repeat 0 (Z.to_nat ((55 - len) mod 64))
      ++ be_bytes 8 ((8 * len) mod 2 ^ 64).

Fixpoint blocks (n : nat) (l : list Z) : list (list Z) :=
  match n with
  | O => []
  | S n' => firstn 64 l :: blocks n' (skipn 64 l)
  end.

Fixpoint be_words (n : nat) (l : list Z) : list Z :=
  match n, l with
  | S n', a :: b :: c :: d :: l' =>
      (Z.shiftl a 24 + Z.shiftl b 16 + Z.shiftl c 8 + d) :: be_words n' l'
  | _, _ => []
  end.

(** The message schedule, most recent word first. *)
Definition schedule_step (ws : list Z) : list Z :=
  add32 (add32 (add32 (ssig1 (nth 1 ws 0)) (nth 6 ws 0))
               (ssig0 (nth 14 ws 0)))
        (nth 15 ws 0) :: ws.

Definition schedule (block : list Z) : list Z :=
  rev (Nat.iter 48 schedule_step (rev (be_words 16 block))).

Definition round (s : state) (kw : Z * Z) : state :=
  let t1 := add32 (add32 (add32 (add32 (h7 s) (bsig1 (h4 s)))
                                (Ch (h4 s) (h5 s) (h6 s)))
                         (fst kw))
                  (snd kw) in
  let t2 := add32 (bsig0 (h0 s)) (Maj (h0 s) (h1 s) (h2 s)) in
  State (add32 t1 t2) (h0 s) (h1 s) (h2 s)
        (add32 (h3 s) t1) (h4 s) (h5 s) (h6 s).

Definition compress (s : state) (block : list Z) : state :=
  let r := fold_left round (combine K (schedule block)) s in
  State (add32 (h0 s) (h0 r)) (add32 (h1 s) (h1 r))
        (add32 (h2 s) (h2 r)) (add32 (h3 s) (h3 r))
        (add32 (h4 s) (h4 r)) (add32 (h5 s) (h5 r))
        (add32 (h6 s) (h6 r)) (add32 (h7 s) (h7 r)).

Definition digest_state (msg : Py.bytes) : state :=
  let p := pad (map Py.byte_val msg) in
  fold_left compress (blocks (length p / 64) p) init.

(** Lower-case hexadecimal rendering. *)
Definition hex_char (n : Z) : Z := if n <? 10 then 48 + n else 87 + n.

Definition hex8 (x : Z) : Py.str :=
  map (fun i => hex_char (Z.land (Z.shiftr x (4 * i)) 15))
      [7; 6; 5; 4; 3; 2; 1; 0].

Definition hex_of_state (s : state) : Py.str :=
  hex8 (h0 s) ++ hex8 (h1 s) ++ hex8 (h2 s) ++ hex8 (h3 s)
  ++ hex8 (h4 s) ++ hex8 (h5 s) ++ hex8 (h6 s) ++ hex8 (h7 s).

(** [hashlib.sha256(msg).hexdigest()] *)
Definition hexdigest (msg : Py.bytes) : Py.str := hex_of_state (digest_state msg).

(** A hash object is the data it was fed so far: [update] appends. *)
Definition hasher := Py.bytes.
Definition new : hasher := [].
Definition update (h : hasher) (data : Py.bytes) : hasher := h ++ data.

End Sha256.

(* ===================================================================== *)
(** * [pathlib] and [os.path] (POSIX)                                      *)
(* ===================================================================== *)

Module PathLib.

Definition slash : Z := 47.
Definition dot : Z := 46.

(** The components of a path between slashes. *)
Fixpoint split_slash (s : Py.str) (cur : Py.str) : list Py.str :=
  match s with
  | [] => [rev cur]
  | c :: s' =>
      if c =? slash then rev cur :: split_slash s' []
      else split_slash s' (c :: cur)
  end.

(** [Path(p).parts] without the root: empty components and ["."] are
    dropped. *)
Definition parts (p : Py.str) : list Py.str :=
  filter (fun c => negb (Py.str_eqb c []) && negb (Py.str_eqb c [dot]))
         (split_slash p []).

(** [Path(p).name] *)
Definition name (p : Py.str) : Py.str := List.last (parts p) [].

(** [s.rfind('.')] *)
Fixpoint rfind_from (s : Py.str) (i best : Z) : Z :=
  match s with
  | [] => best
  | c :: s' => rfind_from s' (i + 1) (if c =? dot then i else best)
  end.

Definition rfind_dot (s : Py.str) : Z := rfind_from s 0 (-1).

(** [Path(p).suffix]: the part of the name from its last dot, unless that dot
    is the first or the last character of the name. *)
Definition suffix (p : Py.str) : Py.str :=
  let n := name p in
  let i := rfind_dot n in
  if (0 <? i) && (i <? Z.of_nat (length n) - 1)
  then skipn (Z.to_nat i) n
  else [].

(** [os.path.join(a, b)] *)
Definition join (a b : Py.str) : Py.str :=
  match b with
  | c :: _ =>
      if c =? slash then b
      else match rev a with
           | [] => b
           | l :: _ => if l =? slash then a ++ b else a ++ [slash] ++ b
           end
  | [] =>
      match rev a with
      | [] => b
      | l :: _ => if l =? slash then a ++ b else a ++ [slash] ++ b
      end
  end.

End PathLib.

(* ===================================================================== *)
(** * Exceptions, JSON values, the world                                   *)
(* ===================================================================== *)

(** The exception classes the backend raises or meets.  All of them are
    subclasses of [Exception]; [PlainException] is [Exception] itself.
    [OSError] stands for its subclasses too ([FileNotFoundError],
    [IsADirectoryError]): it carries the error number, its text and the path
    the call was given. *)
Inductive exn : Type :=
| HTTPException (status_code : Z) (detail : Py.str)
| ValueError (msg : Py.str)
| PlainException (msg : Py.str)
| NameError (msg : Py.str)
| OSError (errno : Z) (strerror : Py.str) (filename : Py.str)
| LibraryError (msg : Py.str)
| IntegrityError (msg : Py.str).

(** [str(e)].  An [OSError] reads "[Errno 2] No such file or directory:
    '/tmp/x'", the path written as [repr] writes it. *)
Definition str_of_exn (e : exn) : Py.str :=
  match e with
  | HTTPException c d => Py.str_of_int c ++ Py.lit ": " ++ d
  | OSError errno strerror filename =>
      Py.lit "[Errno " ++ Py.str_of_int errno ++ Py.lit "] " ++ strerror
      ++ Py.lit ": " ++ Py.repr filename
  | ValueError m | PlainException m | NameError m
  | LibraryError m | IntegrityError m => m
  end.

(** The errors of the file system calls that the model tells apart. *)
Definition ENOENT (path : Py.str) : exn :=
  OSError 2 (Py.lit "No such file or directory") path.
Definition EISDIR (path : Py.str) : exn :=
  OSError 21 (Py.lit "Is a directory") path.
Definition ENOTEMPTY (path : Py.str) : exn :=
  OSError 39 (Py.lit "Directory not empty") path.

(** What a handler returns, as FastAPI serialises it: a [dict] is an object,
    a [tuple] is an array. *)
Inductive json : Type :=
| JNull
| JInt (n : Z)
| JFloat (x : R)
| JStr (s : Py.str)
| JArr (items : list json)
| JObj (fields : list (string * json)).

(** [obj.get(key)] *)
Fixpoint field (key : string) (fields : list (string * json)) : option json :=
  match fields with
  | [] => None
  | (k, v) :: rest => if String.eqb k key then Some v else field key rest
  end.

Definition get (key : string) (v : json) : option json :=
  match v with
  | JObj fields => field key fields
  | _ => None
  end.

(** [models.Document]: a row of the [documents] table. *)
Record Document := {
  id : Z;
  filename : Py.str;
  upload_timestamp : Z;
  file_hash : Py.str }.

(** Calls that leave the process: kept in a log so that "this run did not
    call X" can be stated. *)
Inductive event : Type :=
| EvEncode (text : Py.str)
| EvOpenRead (path : Py.str)
| EvPdfReader (path : Py.str)
| EvDocxDocument (path : Py.str)
| EvSha256 (data : Py.bytes)
| EvDbQuery (hash : Py.str)
| EvDbCommit (doc : Document)
| EvMkdtemp (dir : Py.str)
| EvOpenWrite (path : Py.str)
| EvRemove (path : Py.str)
| EvRmdir (dir : Py.str)
| EvPrint (msg : Py.str).

Record World := {
  files : gmap (list Z) (list byte);
  dirs : gset (list Z);
  documents : list Document;
  log : list event }.

Definition set_files (f : gmap (list Z) (list byte)) (w : World) : World :=
  {| files := f; dirs := dirs w; documents := documents w; log := log w |}.
Definition set_dirs (d : gset (list Z)) (w : World) : World :=
  {| files := files w; dirs := d; documents := documents w; log := log w |}.
Definition set_documents (d : list Document) (w : World) : World :=
  {| files := files w; dirs := dirs w; documents := d; log := log w |}.
Definition add_event (e : event) (w : World) : World :=
  {| files := files w; dirs := dirs w; documents := documents w;
     log := log w ++ [e] |}.

(** ** Statements

    A computation takes the world and ends normally with a value or by
    raising an exception; it hands back the world either way. *)
Inductive outcome (A : Type) : Type :=
| Done (a : A)
| Raised (e : exn).
Arguments Done {A} a.
Arguments Raised {A} e.

Definition M (A : Type) : Type := World -> outcome A * World.

#[global] Instance M_ret : MRet M := fun A a w => (Done a, w).

#[global] Instance M_bind : MBind M := fun A B k m w =>
  match m w with
  | (Done a, w') => k a w'
  | (Raised e, w') => (Raised e, w')
  end.

Definition raise {A : Type} (e : exn) : M A := fun w => (Raised e, w).

Definition get_world : M World := fun w => (Done w, w).

Definition modify (f : World -> World) : M unit := fun w => (Done tt, f w).

Definition emit (e : event) : M unit := modify (add_event e).

(** [try: body  except Exception as e: handler(e)] *)
Definition try_except {A : Type} (body : M A) (handler : exn -> M A) : M A :=
  fun w =>
    match body w with
    | (Raised e, w') => handler e w'
    | r => r
    end.

(** [try: body  finally: fin] *)
Definition try_finally {A : Type} (body : M A) (fin : M unit) : M A :=
  fun w =>
    match body w with
    | (r, w') =>
        match fin w' with
        | (Done _, w'') => (r, w'')
        | (Raised e, w'') => (Raised e, w'')
        end
    end.

(** A statement of a function body falls through ([None]) or returns a value
    ([Some v]); the statements after a [return] are not run. *)
Definition stmt_seq {V : Type} (s1 s2 : M (option V)) : M (option V) :=
  r ← s1;
  match r with
  | Some v => mret (Some v)
  | None => s2
  end.

Definition result {A : Type} (r : outcome A * World) : outcome A := fst r.

(** One step of a computation, in proofs. *)
Ltac run_step :=
  unfold mbind, M_bind, mret, M_ret, emit, modify, get_world, raise;
  cbn [files dirs documents log add_event set_files set_dirs set_documents
       fst snd].


(* ===================================================================== *)
(** * [sklearn.metrics.pairwise.cosine_similarity] and [round]             *)
(* ===================================================================== *)

Module Numeric.
Local Open Scope R_scope.

Fixpoint dot (a b : list R) : R :=
  match a, b with
  | x :: a', y :: b' => x * y + dot a' b'
  | _, _ => 0
  end.

Definition norm (a : list R) : R := sqrt (dot a a).

(** [sklearn.preprocessing.normalize]: a row of norm zero is left as it is. *)
Definition normalize (a : list R) : list R :=
  let n := norm a in
  let n' := if Req_dec_T n 0 then 1 else n in
  map (fun x => x / n') a.

(** [cosine_similarity(a.reshape(1, -1), b.reshape(1, -1))[0][0]] *)
Definition cosine_similarity (a b : list R) : R :=
  dot (normalize a) (normalize b).

(** Rounding to the nearest integer, ties to the even one. *)
Definition round_half_even (y : R) : Z :=
  let f := Int_part y in
  let d := y - IZR f in
  if Rlt_dec d (1 / 2) then f
  else if Rlt_dec (1 / 2) d then (f + 1)%Z
  else if Z.even f then f else (f + 1)%Z.

(** [round(x, 2)] *)
Definition round2 (x : R) : R := IZR (round_half_even (x * 100)) / 100.

End Numeric.

(* ===================================================================== *)
(** * [nlp_engine.py]                                                      *)
(* ===================================================================== *)

(** The libraries [nlp_engine.py] imports: the sentence-transformers model
    ([self.model.encode]), pypdf ([PdfReader(file).pages] with the text of
    each page) and python-docx ([Document(path).paragraphs] with the text of
    each paragraph).  [PdfReader_pages] and [DocxDocument_paragraphs] say
    what the parser makes of a file that holds the given bytes: its texts,
    or the exception it raises.  python-docx also reads a directory, as an
    unpacked package, from the files below it: [DocxDirectory_paragraphs]. *)
Class NlpLibs := {
  model_encode : Py.str -> list R;
  PdfReader_pages : Py.bytes -> outcome (list Py.str);
  DocxDocument_paragraphs : Py.bytes -> outcome (list Py.str);
  DocxDirectory_paragraphs :
    Py.str -> gmap (list Z) (list byte) -> outcome (list Py.str) }.

(** [open(path, 'rb')] and reading it whole.  A directory cannot be opened;
    a path that names nothing cannot either. *)
Definition open_rb (path : Py.str) : M Py.bytes :=
  w ← get_world;
  _ ← emit (EvOpenRead path);
  match files w !! path with
  | Some content => mret content
  | None =>
      if bool_decide (path ∈ dirs w) then raise (EISDIR path)
      else raise (ENOENT path)
  end.

(** [f.read(n)] on the unread part of a file: the block read and what is
    left. *)
Definition read (n : nat) (f : Py.bytes) : Py.bytes * Py.bytes :=
  (firstn n f, skipn n f).

Definition inspect {A : Type} (a : A) : {b : A | a = b} := exist _ a eq_refl.

(** [for byte_block in iter(lambda: f.read(4096), b""):
       sha256_hash.update(byte_block)] *)
Equations? hash_loop (f : Py.bytes) (h : Sha256.hasher) : Sha256.hasher
  by wf (length f) lt :=
hash_loop f h with inspect (read 4096 f) := {
  | exist _ ([], _) _ => h
  | exist _ (b :: block, f') e => hash_loop f' (Sha256.update h (b :: block)) }.
Proof.
  unfold read in e. injection e as e1 e2. subst f'.
  destruct f as [|x f]; [discriminate|].
  rewrite length_skipn. simpl. lia.
Defined.

Section NlpEngine.
Context {libs : NlpLibs}.

(** [PlagiarismDetector.compute_similarity].  [cosine_similarity] checks its
    arguments first: it raises [ValueError] on a vector without entries and
    on two vectors of different lengths, naming the two lengths in the order
    of the arguments. *)
Definition compute_similarity (text1 text2 : Py.str) : M R :=
  if negb (Py.truthy (Py.strip text1)) || negb (Py.truthy (Py.strip text2))
  then mret 0%R
  else
    _ ← emit (EvEncode text1);
    let embedding1 := model_encode text1 in
    _ ← emit (EvEncode text2);
    let embedding2 := model_encode text2 in
    if (length embedding1 =? 0)%nat || (length embedding2 =? 0)%nat
    then raise (ValueError (Py.lit
      "Found array with 0 feature(s) (shape=(1, 0)) while a minimum of 1 is required by check_pairwise_arrays."))
    else if negb (length embedding1 =? length embedding2)%nat
    then raise (ValueError
      (Py.lit "Incompatible dimension for X and Y matrices: X.shape[1] == "
       ++ Py.str_of_int (Z.of_nat (length embedding1))
       ++ Py.lit " while Y.shape[1] == "
       ++ Py.str_of_int (Z.of_nat (length embedding2))))
    else
      let similarity := Numeric.cosine_similarity embedding1 embedding2 in
      mret (Numeric.round2 (similarity * 100)%R).

(** [PlagiarismDetector.load_pdf] *)
Definition load_pdf (file_path : Py.str) : M Py.str :=
  try_except
    (file ← open_rb file_path;
     _ ← emit (EvPdfReader file_path);
     match PdfReader_pages file with
     | Raised e => raise e
     | Done pages =>
         let text :=
           fold_left (fun text page => text ++ page ++ Py.newline)
                     pages [] in
         mret (Py.strip text)
     end)
    (fun e => raise (PlainException (Py.lit "Error reading PDF file: " ++ str_of_exn e))).

(** [docx.Document(path)]: python-docx is handed the path and looks at it
    itself.  A path that is neither a directory nor a zip archive, a path
    that names nothing among them, is refused with [PackageNotFoundError];
    a directory is read as an unpacked package. *)
Definition DocxDocument (path : Py.str) : M (list Py.str) :=
  w ← get_world;
  _ ← emit (EvDocxDocument path);
  match files w !! path with
  | Some content =>
      match DocxDocument_paragraphs content with
      | Raised e => raise e
      | Done paragraphs => mret paragraphs
      end
  | None =>
      if bool_decide (path ∈ dirs w)
      then match DocxDirectory_paragraphs path (files w) with
           | Raised e => raise e
           | Done paragraphs => mret paragraphs
           end
      else raise (LibraryError
             (Py.lit "Package not found at '" ++ path ++ Py.lit "'"))
  end.

(** [PlagiarismDetector.load_docx] *)
Definition load_docx (file_path : Py.str) : M Py.str :=
  try_except
    (paragraphs ← DocxDocument file_path;
     let text := Py.join (Py.newline) paragraphs in
     mret (Py.strip text))
    (fun e => raise (PlainException (Py.lit "Error reading DOCX file: " ++ str_of_exn e))).

(** [PlagiarismDetector.extract_text] *)
Definition extract_text (file_path : Py.str) : M Py.str :=
  let file_extension := Py.lower (PathLib.suffix file_path) in
  if Py.str_eqb file_extension (Py.lit ".pdf") then load_pdf file_path
  else if Py.str_eqb file_extension (Py.lit ".docx") then load_docx file_path
  else raise (ValueError (Py.lit "Unsupported file format: " ++ file_extension
                          ++ Py.lit ". Supported formats: .pdf, .docx")).

End NlpEngine.

(** [compute_file_hash] *)
Definition compute_file_hash (file_path : Py.str) : M Py.str :=
  f ← open_rb file_path;
  let sha256_hash := hash_loop f Sha256.new in
  _ ← emit (EvSha256 sha256_hash);
  mret (Sha256.hexdigest sha256_hash).

(* ===================================================================== *)
(** * [models.py] and the database session                                 *)
(* ===================================================================== *)

(** What [main.py] takes from the run-time system: the directory name
    [tempfile.mkdtemp] picks, the clock behind the column default
    [datetime.utcnow], and the rendering of a timestamp ([isoformat]) and of
    a float (in an f-string). *)
Class Runtime := {
  mkdtemp_name : World -> Py.str;
  utcnow : World -> Z;
  isoformat : Z -> Py.str;
  float_str : R -> Py.str }.

Module Db.

(** A SQLAlchemy session on the [documents] table. *)
Definition Session : Type := unit.

(** The primary key SQLite gives a new row. *)
Definition next_id (docs : list Document) : Z :=
  1 + fold_right Z.max 0 (map id docs).

(** [db.query(Document).filter(Document.file_hash == h).first()] *)
Definition query_first (db : Session) (h : Py.str) : M (option Document) :=
  _ ← emit (EvDbQuery h);
  w ← get_world;
  mret (List.find (fun d => Py.str_eqb (file_hash d) h) (documents w)).

(** [db.add(Document(filename=..., file_hash=...)); db.commit();
    db.refresh(...)]: the column [file_hash] is [unique]. *)
Definition add_commit_refresh `{Runtime} (db : Session) (name h : Py.str)
  : M Document :=
  w ← get_world;
  if existsb (fun d => Py.str_eqb (file_hash d) h) (documents w)
  then raise (IntegrityError (Py.lit "UNIQUE constraint failed: documents.file_hash"))
  else
    let doc := {| id := next_id (documents w); filename := name;
                  upload_timestamp := utcnow w; file_hash := h |} in
    _ ← emit (EvDbCommit doc);
    _ ← modify (set_documents (documents w ++ [doc]));
    mret doc.

End Db.

(* ===================================================================== *)
(** * [os], [tempfile]                                                     *)
(* ===================================================================== *)

(** A plain model of the file system: paths are strings the system accepts,
    compared as written (no [..], no links); a file can be created in an
    existing directory.  Three errors are told apart: the path names nothing
    ([ENOENT]), it names a directory where a file is wanted ([EISDIR]), the
    directory is not empty ([ENOTEMPTY]). *)
Module Os.

(** [s.rfind('/')] *)
Fixpoint rfind_slash (s : Py.str) (i best : Z) : Z :=
  match s with
  | [] => best
  | c :: s' => rfind_slash s' (i + 1) (if c =? PathLib.slash then i else best)
  end.

Fixpoint rstrip_slash_rev (r : Py.str) : Py.str :=
  match r with
  | c :: r' => if c =? PathLib.slash then rstrip_slash_rev r' else r
  | [] => []
  end.

(** [os.path.dirname(p)] *)
Definition dirname (p : Py.str) : Py.str :=
  let head := firstn (Z.to_nat (rfind_slash p 0 (-1) + 1)) p in
  if forallb (fun c => c =? PathLib.slash) head then head
  else rev (rstrip_slash_rev (rev head)).

(** [tempfile.mkdtemp()] *)
Definition mkdtemp `{Runtime} : M Py.str :=
  w ← get_world;
  let d := mkdtemp_name w in
  _ ← emit (EvMkdtemp d);
  _ ← modify (set_dirs ({[d]} ∪ dirs w));
  mret d.

(** [open(path, "wb")]: the file is created empty. *)
Definition open_wb (path : Py.str) : M unit :=
  w ← get_world;
  _ ← emit (EvOpenWrite path);
  if bool_decide (path ∈ dirs w)
  then raise (EISDIR path)
  else if negb (bool_decide (dirname path ∈ dirs w))
  then raise (ENOENT path)
  else modify (set_files (<[path := []]> (files w))).

(** [buffer.write(content)] *)
Definition write (path : Py.str) (content : Py.bytes) : M unit :=
  w ← get_world;
  modify (set_files (<[path := content]> (files w))).

(** [os.path.exists(path)] *)
Definition exists_ (path : Py.str) : M bool :=
  w ← get_world;
  mret (bool_decide (is_Some (files w !! path)) || bool_decide (path ∈ dirs w)).

(** [os.remove(path)] *)
Definition remove (path : Py.str) : M unit :=
  w ← get_world;
  _ ← emit (EvRemove path);
  match files w !! path with
  | Some _ => modify (set_files (delete path (files w)))
  | None =>
      if bool_decide (path ∈ dirs w) then raise (EISDIR path)
      else raise (ENOENT path)
  end.

Definition is_empty_dir (d : Py.str) (w : World) : bool :=
  bool_decide (map_Forall (fun p (_ : list byte) => dirname p ≠ d) (files w))
  && bool_decide (set_Forall (fun p => dirname p ≠ d) (dirs w)).

(** [os.rmdir(d)] *)
Definition rmdir (d : Py.str) : M unit :=
  w ← get_world;
  _ ← emit (EvRmdir d);
  if negb (bool_decide (d ∈ dirs w))
  then raise (ENOENT d)
  else if negb (is_empty_dir d w)
  then raise (ENOTEMPTY d)
  else modify (set_dirs (dirs w ∖ {[d]})).

End Os.

(* ===================================================================== *)
(** * [main.py]                                                            *)
(* ===================================================================== *)

(** [fastapi.UploadFile]: the name the client gave and the bytes sent. *)
Module UploadFile.

Record t := { filename : Py.str; content : Py.bytes }.

(** [await file.read()] *)
Definition read (file : t) : M Py.bytes := mret (content file).

End UploadFile.

(** What the client receives. *)
Record Response := { status_code : Z; body : json }.

(** FastAPI around a handler: a returned value is sent with status 200, an
    [HTTPException] with its own status and a [detail] body, any other
    exception as a bare 500. *)
Definition respond (r : outcome (option json)) : Response :=
  match r with
  | Done (Some v) => {| status_code := 200; body := v |}
  | Done None => {| status_code := 200; body := JNull |}
  | Raised (HTTPException c d) =>
      {| status_code := c; body := JObj [("detail"%string, JStr d)] |}
  | Raised _ =>
      {| status_code := 500; body := JStr (Py.lit "Internal Server Error") |}
  end.

Definition AFRICAN_RESEARCH_CORPUS : Py.str := Py.lit "
The economic impact of subsidy removal in Nigeria has been a subject of extensive research 
in recent years. The removal of fuel subsidies has led to significant changes in the 
economic landscape, affecting both urban and rural populations. Studies have shown that 
while subsidy removal aims to reduce government expenditure and promote market efficiency, 
it often results in increased inflation and reduced purchasing power for low-income households.

Agricultural development in Sub-Saharan Africa continues to face numerous challenges, 
including climate change, inadequate infrastructure, and limited access to modern 
farming technologies. Research institutions across the continent have been working 
on developing sustainable farming practices that are both economically viable and 
environmentally friendly.

Education systems in African countries have undergone significant reforms to improve 
access and quality. However, challenges remain in terms of teacher training, curriculum 
development, and resource allocation. Research has shown that investment in early childhood 
education yields long-term benefits for economic development.

Healthcare systems in many African nations struggle with limited resources and 
infrastructure. The COVID-19 pandemic highlighted the importance of robust healthcare 
systems and the need for increased investment in public health infrastructure. Research 
focuses on developing cost-effective healthcare solutions tailored to local contexts.

Regional integration and trade agreements have been key areas of research in African 
economic development. The African Continental Free Trade Area (AfCFTA) represents a 
significant milestone in promoting intra-African trade and economic cooperation.
".

Section Main.
Context {libs : NlpLibs} {rt : Runtime}.

(** The name [db] is bound neither in [check_plagiarism] (its only parameter
    is [file]) nor at module level: evaluating it raises [NameError]. *)
Definition db : M Db.Session :=
  raise (NameError (Py.lit "name 'db' is not defined")).

(** Lines 123-147: the [try] statement that opens the body.  Both branches
    of its [if] return, and so does its handler. *)
Definition check_plagiarism_try (file : UploadFile.t) : M (option json) :=
  try_except
    (content ← UploadFile.read file;
     let text_content := Py.decode content in
     if negb (Py.truthy (Py.strip text_content))
     then mret (Some (JObj
            [("error"%string,
              JStr (Py.lit "The uploaded document or text is empty."))]))
     else mret (Some (JObj
            [("similarity_score"%string, JInt 25);
             ("filename"%string, JStr (UploadFile.filename file));
             ("status"%string, JStr (Py.lit "success"))])))
    (fun e =>
       _ ← emit (EvPrint (Py.lit "Error: " ++ str_of_exn e));
       mret (Some (JArr [JObj [("error"%string, JStr (str_of_exn e))];
                         JInt 500]))).

(** Lines 174-233: the body of the second [try]: staging, fingerprint,
    lookup, extraction, scoring, insertion and the answer. *)
Definition check_plagiarism_pipeline (file : UploadFile.t)
    (temp_file_path : Py.str) : M (option json) :=
  _ ← Os.open_wb temp_file_path;
  content ← UploadFile.read file;
  _ ← Os.write temp_file_path content;
  file_hash ← compute_file_hash temp_file_path;
  session ← db;
  existing_document ← Db.query_first session file_hash;
  extracted_text ←
    try_except (extract_text temp_file_path)
      (fun e => raise (HTTPException 422
         (Py.lit "Error extracting text from file: " ++ str_of_exn e)));
  if negb (Py.truthy extracted_text)
     || negb (Py.truthy (Py.strip extracted_text))
  then raise (HTTPException 422
         (Py.lit "No text could be extracted from the uploaded file"))
  else
    similarity_score ←
      compute_similarity extracted_text AFRICAN_RESEARCH_CORPUS;
    db_document ←
      match existing_document with
      | Some existing => mret existing
      | None =>
          Db.add_commit_refresh session (UploadFile.filename file) file_hash
      end;
    let message := Py.lit "Plagiarism check completed successfully" in
    mret (Some (JObj
      [("message"%string, JStr message);
       ("document_id"%string, JInt (id db_document));
       ("filename"%string, JStr (UploadFile.filename file));
       ("upload_timestamp"%string,
        JStr (isoformat (upload_timestamp db_document)));
       ("similarity_score"%string, JFloat similarity_score);
       ("similarity_percentage"%string,
        JStr (float_str similarity_score ++ Py.lit "%"));
       ("file_hash"%string, JStr file_hash);
       ("text_extracted_length"%string,
        JInt (Z.of_nat (length extracted_text)))])).

(** Lines 235-242: [HTTPException] is raised again, any other exception
    becomes a 500. *)
Definition translate_error {A : Type} (e : exn) : M A :=
  match e with
  | HTTPException _ _ => raise e
  | _ => raise (HTTPException 500
           (Py.lit "Internal server error: " ++ str_of_exn e))
  end.

(** Lines 243-250: the [finally] block; what goes wrong in it is ignored. *)
Definition cleanup (temp_dir temp_file_path : Py.str) : M unit :=
  try_except
    (present ← Os.exists_ temp_file_path;
     _ ← (if (present : bool) then Os.remove temp_file_path else mret tt);
     Os.rmdir temp_dir)
    (fun _ => mret tt).

(** Lines 173-250: [try ... except ... finally]. *)
Definition check_plagiarism_staged (file : UploadFile.t)
    (temp_dir temp_file_path : Py.str) : M (option json) :=
  try_finally
    (try_except (check_plagiarism_pipeline file temp_file_path) translate_error)
    (cleanup temp_dir temp_file_path).

(** Lines 161-250: the statements that follow the [try] statement. *)
Definition check_plagiarism_rest (file : UploadFile.t) : M (option json) :=
  let file_extension := Py.lower (PathLib.suffix (UploadFile.filename file)) in
  if negb (Py.str_in file_extension [Py.lit ".pdf"; Py.lit ".docx"])
  then raise (HTTPException 400
         (Py.lit "Unsupported file format. Supported formats: .pdf, .docx"))
  else
    temp_dir ← Os.mkdtemp;
    let temp_file_path := PathLib.join temp_dir (UploadFile.filename file) in
    check_plagiarism_staged file temp_dir temp_file_path.

(** [check_plagiarism]: the body of the handler, statement after
    statement. *)
Definition check_plagiarism (file : UploadFile.t) : M (option json) :=
  stmt_seq (check_plagiarism_try file) (check_plagiarism_rest file).

(** [POST /check-plagiarism/]: the handler under FastAPI. *)
Definition post_check_plagiarism (file : UploadFile.t) (w : World)
  : Response * World :=
  let r := check_plagiarism file w in (respond (fst r), snd r).

End Main.

(* ===================================================================== *)
(** * Concrete collaborators and uploads used in examples                  *)
(* ===================================================================== *)

Module Examples.

(** A sentence-transformers stand-in with two opposed unit vectors, a PDF
    reader that finds two pages, and a DOCX reader that accepts only files
    that start like a zip archive. *)
Definition starts_with_PK (content : Py.bytes) : bool :=
  match content with
  | x50 :: x4b :: _ => true
  | _ => false
  end.

#[local] Instance libs : NlpLibs := {|
  model_encode := fun text =>
    if Py.str_eqb text (Py.lit "b") then [(-1)%R; 0%R] else [1%R; 0%R];
  PdfReader_pages := fun _ => Done [Py.lit " Hello "; Py.lit "world"];
  DocxDocument_paragraphs := fun content =>
    if starts_with_PK content
    then Done [Py.lit "First paragraph"; Py.lit "second "]
    else Raised (LibraryError (Py.lit "File is not a zip file"));
  DocxDirectory_paragraphs := fun path _ =>
    Raised (ENOENT (PathLib.join path (Py.lit "[Content_Types].xml"))) |}.

#[local] Instance rt : Runtime := {|
  mkdtemp_name := fun w =>
    Py.lit "/tmp/tmp" ++ Py.str_of_int (Z.of_nat (length (log w)));
  utcnow := fun w => Z.of_nat (length (log w));
  isoformat := fun t => Py.str_of_int t;
  float_str := fun _ => Py.lit "0.0" |}.

Definition bytes_of (s : string) : Py.bytes := list_byte_of_string s.

Definition essay_txt : UploadFile.t :=
  {| UploadFile.filename := Py.lit "essay.txt";
     UploadFile.content := bytes_of "hello" |}.

Definition blank_pdf : UploadFile.t :=
  {| UploadFile.filename := Py.lit "paper.pdf";
     UploadFile.content := bytes_of "   " |}.

Definition paper_pdf : UploadFile.t :=
  {| UploadFile.filename := Py.lit "paper.pdf";
     UploadFile.content := bytes_of "%PDF-1.4 one sentence" |}.

Definition copy_pdf : UploadFile.t :=
  {| UploadFile.filename := Py.lit "copy.pdf";
     UploadFile.content := bytes_of "%PDF-1.4 one sentence" |}.

Definition broken_docx : UploadFile.t :=
  {| UploadFile.filename := Py.lit "broken.docx";
     UploadFile.content := bytes_of "not a zip archive" |}.

(** A server that has just started: [/tmp] exists, no document is stored. *)
Definition fresh_world : World :=
  {| files := ∅; dirs := {[ Py.lit "/tmp" ]}; documents := []; log := [] |}.

(** The same, with [broken_docx] already on disk. *)
Definition world_with_broken_docx : World :=
  {| files := {[ Py.lit "/tmp/broken.docx" := UploadFile.content broken_docx ]};
     dirs := {[ Py.lit "/tmp" ]}; documents := []; log := [] |}.

End Examples.

(** Requests served one after the other. *)
Fixpoint serve `{NlpLibs} `{Runtime} (requests : list UploadFile.t) (w : World)
  : list Response * World :=
  match requests with
  | [] => ([], w)
  | file :: rest =>
      let r := post_check_plagiarism file w in
      let rs := serve rest (snd r) in
      (fst r :: fst rs, snd rs)
  end.

(** The answers of the handler that the claims speak of. *)
Definition success_body (name : Py.str) : json :=
  JObj [("similarity_score"%string, JInt 25);
        ("filename"%string, JStr name);
        ("status"%string, JStr (Py.lit "success"))].

Definition empty_body : json :=
  JObj [("error"%string,
         JStr (Py.lit "The uploaded document or text is empty."))].

Definition is_lower_hex (c : Z) : Prop :=
  (48 <= c <= 57) \/ (97 <= c <= 102).

(* ===================================================================== *)
(** * Facts about the built-ins                                            *)
(* ===================================================================== *)

(** A byte that can never open a UTF-8 sequence: a continuation byte, the
    over-long leads [0xC0] and [0xC1], and everything from [0xF5] up. *)
Definition never_starts_utf8 (b : Z) : bool :=
  ((128 <=? b) && (b <? 194)) || (245 <=? b).

(** More collaborators, uploads and worlds for examples. *)
Module MoreExamples.

(** A PDF reader that finds three blank pages; a DOCX reader that finds no
    paragraph. *)
#[local] Instance libs : NlpLibs := {|
  model_encode := fun _ => [1%R; 0%R];
  PdfReader_pages := fun _ => Done [Py.lit "  "; []; Py.lit " "];
  DocxDocument_paragraphs := fun _ => Done [];
  DocxDirectory_paragraphs := fun _ _ => Done [] |}.

Definition world_with_scan : World :=
  {| files := {[ Py.lit "/tmp/scan.pdf" := Examples.bytes_of "%PDF" ]};
     dirs := {[ Py.lit "/tmp" ]}; documents := []; log := [] |}.

Definition world_with_report : World :=
  {| files := {[ Py.lit "/tmp/Report.PDF" := Examples.bytes_of "%PDF" ]};
     dirs := {[ Py.lit "/tmp" ]}; documents := []; log := [] |}.

Definition undecodable_upload : UploadFile.t :=
  {| UploadFile.filename := Py.lit "scan.pdf";
     UploadFile.content := [xff; xfe; x20; x80; x0a; xc1] |}.



Definition stored_paper : Document :=
  {| id := 7; filename := Py.lit "paper.pdf"; upload_timestamp := 100;
     file_hash := Py.lit "aa" |}.

Definition world_with_one_document : World :=
  {| files := ∅; dirs := {[ Py.lit "/tmp" ]};
     documents := [stored_paper]; log := [] |}.



Definition bundle_upload : UploadFile.t :=
  {| UploadFile.filename := Py.lit "/home/ada/Thesis.DOCX";
     UploadFile.content := Examples.bytes_of "PK" |}.

Definition world_with_bundle : World :=
  {| files := ∅;
     dirs := {[ Py.lit "/tmp"; Py.lit "/home/ada";
                Py.lit "/home/ada/Thesis.DOCX" ]};
     documents := []; log := [EvPrint (Py.lit "started")] |}.




End MoreExamples.

(** The models of the built-ins on known values. *)
Example decode_drops_what_is_not_utf8 :
  Py.utf8_decode_ignore [0xE2; 0x82; 0xAC; 0x41; 0xC3; 0x28; 0xED; 0xA0; 0x80; 0xE2; 0x82]
  = [8364; 65; 40].
Proof. reflexivity. Qed.

Example strip_keeps_inner_space :
  Py.strip (Py.lit "  a b  ") = Py.lit "a b".
Proof. reflexivity. Qed.

Example suffix_of_some_names :
  map (fun name => Py.lower (PathLib.suffix (Py.lit name)))
      ["paper.PDF"; "a/b.tar.gz"; ".pdf"; "notes."; "x.docx/"]%string
  = [Py.lit ".pdf"; Py.lit ".gz"; []; []; Py.lit ".docx"].
Proof. reflexivity. Qed.

Example sha256_of_the_empty_message :
  Sha256.hexdigest []
  = Py.lit "e3b0c44298fc1c149afbf4c8996fb92427ae41e4649b934ca495991b7852b855".
Proof. vm_compute. reflexivity. Qed.

Example repr_of_some_strings :
  Py.repr (Py.lit "/tmp/lost.pdf") = Py.lit "'/tmp/lost.pdf'"
  /\ Py.repr [97; 39; 98; 10; 133; 233; 8203]
     = [34; 97; 39; 98] ++ Py.lit "\n\x85" ++ [233] ++ Py.lit "\u200b" ++ [34].
Proof. vm_compute. split; reflexivity. Qed.

Example str_of_a_missing_file_error :
  str_of_exn (ENOENT (Py.lit "/tmp/lost.pdf"))
  = Py.lit "[Errno 2] No such file or directory: '/tmp/lost.pdf'".
Proof. vm_compute. reflexivity. Qed.

Lemma truthy_false_iff (s : Py.str) : Py.truthy s = false <-> s = [].
Proof. destruct s; simpl; split; congruence. Qed.

Lemma truthy_true_iff (s : Py.str) : Py.truthy s = true <-> s <> [].
Proof. destruct s; simpl; split; congruence. Qed.

Lemma str_eqb_eq (a b : Py.str) : Py.str_eqb a b = true <-> a = b.
Proof. unfold Py.str_eqb. apply bool_decide_eq_true. Qed.

Lemma str_eqb_neq (a b : Py.str) : Py.str_eqb a b = false <-> a <> b.
Proof. unfold Py.str_eqb. apply bool_decide_eq_false. Qed.

(* ===================================================================== *)
(** * The handler as it runs                                               *)
(* ===================================================================== *)

Section MainFacts.
Context {libs : NlpLibs} {rt : Runtime}.

(** The [try] statement at the head of [check_plagiarism] always returns: the
    "empty" answer for a blank upload, the constant answer otherwise; it
    raises nothing and touches nothing. *)
Lemma check_plagiarism_try_returns (file : UploadFile.t) (w : World) :
  check_plagiarism_try file w =
    (Done (Some (if Py.truthy (Py.strip (Py.decode (UploadFile.content file)))
                 then success_body (UploadFile.filename file)
                 else empty_body)), w).
Proof.
  unfold check_plagiarism_try, try_except, UploadFile.read.
  unfold mbind, M_bind, mret, M_ret. simpl.
  destruct (Py.truthy _); reflexivity.
Qed.

(** Hence the statements after it are never run. *)
Lemma check_plagiarism_is_its_try (file : UploadFile.t) (w : World) :
  check_plagiarism file w = check_plagiarism_try file w.
Proof.
  unfold check_plagiarism, stmt_seq, mbind, M_bind.
  rewrite check_plagiarism_try_returns. reflexivity.
Qed.

Lemma post_check_plagiarism_run (file : UploadFile.t) (w : World) :
  post_check_plagiarism file w =
    ({| status_code := 200;
        body := if Py.truthy (Py.strip (Py.decode (UploadFile.content file)))
                then success_body (UploadFile.filename file)
                else empty_body |}, w).
Proof.
  unfold post_check_plagiarism.
  rewrite check_plagiarism_is_its_try, check_plagiarism_try_returns.
  reflexivity.
Qed.

Lemma serve_documents (requests : list UploadFile.t) (w : World) :
  snd (serve requests w) = w.
Proof.
  revert w. induction requests as [|file rest IH]; intros w; cbn [serve].
  - reflexivity.
  - rewrite post_check_plagiarism_run. cbn [fst snd]. apply IH.
Qed.

Lemma serve_answers (requests : list UploadFile.t) (w : World) :
  fst (serve requests w) =
    map (fun file => fst (post_check_plagiarism file w)) requests.
Proof.
  revert w. induction requests as [|file rest IH]; intros w; cbn [serve map].
  - reflexivity.
  - cbn [fst]. f_equal. rewrite IH.
    rewrite (post_check_plagiarism_run file w). reflexivity.
Qed.

End MainFacts.

(* ===================================================================== *)
(** * The claims about [check_plagiarism]                                  *)
(* ===================================================================== *)

Section HandlerClaims.
Context {libs : NlpLibs} {rt : Runtime}.

(** C1 (the code departs from the claim).  An upload with a wrong extension
    ([essay.txt]) is answered 200 with the constant success object, and a
    blank upload ([paper.pdf] holding three spaces) is answered 200 with an
    [error] field: the handler never answers 400 and never sends a [detail]
    body.  The world is left as it was in both cases. *)
Theorem C1_rejected_uploads_are_answered_200 (w : World) :
  post_check_plagiarism Examples.essay_txt w
    = ({| status_code := 200; body := success_body (Py.lit "essay.txt") |}, w)
  /\ post_check_plagiarism Examples.blank_pdf w
    = ({| status_code := 200; body := empty_body |}, w)
  /\ (forall file : UploadFile.t,
        status_code (fst (post_check_plagiarism file w)) = 200
        /\ get "detail" (body (fst (post_check_plagiarism file w))) = None).
Proof.
  split; [|split].
  - rewrite post_check_plagiarism_run. reflexivity.
  - rewrite post_check_plagiarism_run. reflexivity.
  - intros file. rewrite post_check_plagiarism_run. cbn [fst status_code body].
    split; [reflexivity|].
    destruct (Py.truthy _); reflexivity.
Qed.

(** C2.  When the uploaded bytes, decoded as UTF-8 with errors ignored, are
    not blank, the handler answers 200 with [similarity_score] 25, the
    upload's [filename] and [status] "success", whatever the extension; the
    world after the call is the world before it, so no file was read or
    written, nothing was hashed, parsed, encoded, queried or stored (each of
    these would add an event to the log or change a table). *)
Theorem C2_nonblank_upload_gets_the_constant_answer
    (file : UploadFile.t) (w : World) :
  Py.strip (Py.decode (UploadFile.content file)) <> [] ->
  post_check_plagiarism file w =
    ({| status_code := 200;
        body := JObj [("similarity_score"%string, JInt 25);
                      ("filename"%string, JStr (UploadFile.filename file));
                      ("status"%string, JStr (Py.lit "success"))] |}, w).
Proof.
  intros Hnonblank. rewrite post_check_plagiarism_run.
  apply truthy_true_iff in Hnonblank. rewrite Hnonblank. reflexivity.
Qed.

(** C3 (the code departs from the claim).  No answer of the handler carries
    [message], [document_id], [upload_timestamp], [similarity_percentage],
    [file_hash] or [text_extracted_length]; where [similarity_score] is
    present it is the integer 25.  For [paper.pdf] the answer is the
    three-field success object. *)
Theorem C3_success_answer_has_three_fields (file : UploadFile.t) (w : World) :
  let answer := body (fst (post_check_plagiarism file w)) in
  get "message" answer = None
  /\ get "document_id" answer = None
  /\ get "upload_timestamp" answer = None
  /\ get "similarity_percentage" answer = None
  /\ get "file_hash" answer = None
  /\ get "text_extracted_length" answer = None
  /\ (get "similarity_score" answer = None
      \/ get "similarity_score" answer = Some (JInt 25))
  /\ fst (post_check_plagiarism Examples.paper_pdf w)
     = {| status_code := 200; body := success_body (Py.lit "paper.pdf") |}.
Proof.
  cbv zeta. rewrite !post_check_plagiarism_run. cbn [fst body].
  destruct (Py.truthy (Py.strip (Py.decode (UploadFile.content file))));
    repeat split; try reflexivity; auto.
Qed.

(** C8 (the code departs from the claim).  Whatever requests are served, the
    [documents] table is left as it was and no answer carries a
    [document_id].  Uploading the same bytes twice, as [paper.pdf] and as
    [copy.pdf], to a server with an empty table gives two success answers and
    an empty table: no record exists for that content. *)
Theorem C8_no_record_is_ever_created (requests : list UploadFile.t) (w : World) :
  documents (snd (serve requests w)) = documents w
  /\ Forall (fun r => get "document_id" (body r) = None) (fst (serve requests w))
  /\ serve [Examples.paper_pdf; Examples.copy_pdf] Examples.fresh_world
     = ([ {| status_code := 200; body := success_body (Py.lit "paper.pdf") |};
          {| status_code := 200; body := success_body (Py.lit "copy.pdf") |} ],
        Examples.fresh_world)
  /\ documents Examples.fresh_world = [].
Proof.
  split; [|split; [|split]].
  - rewrite serve_documents. reflexivity.
  - rewrite serve_answers. apply List.Forall_forall. intros r Hr.
    apply in_map_iff in Hr. destruct Hr as [file [<- _]].
    rewrite post_check_plagiarism_run. cbn [fst body].
    destruct (Py.truthy _); reflexivity.
  - cbn [serve]. rewrite !post_check_plagiarism_run. reflexivity.
  - reflexivity.
Qed.

End HandlerClaims.

(** C9 (the code departs from the claim).  [broken.docx] is not a zip
    archive: once on disk, [extract_text] fails on it with the parser's
    error.  Uploaded, it is answered 200 with the success object, and no
    upload is ever answered 422.  The table is untouched. *)
Theorem C9_unreadable_upload_is_answered_200 :
  result (extract_text (libs := Examples.libs) (Py.lit "/tmp/broken.docx")
                       Examples.world_with_broken_docx)
    = Raised (PlainException
                (Py.lit "Error reading DOCX file: File is not a zip file"))
  /\ post_check_plagiarism (libs := Examples.libs) (rt := Examples.rt)
       Examples.broken_docx Examples.fresh_world
     = ({| status_code := 200; body := success_body (Py.lit "broken.docx") |},
        Examples.fresh_world)
  /\ (forall (libs : NlpLibs) (rt : Runtime) (file : UploadFile.t) (w : World),
        status_code (fst (post_check_plagiarism file w)) <> 422
        /\ documents (snd (post_check_plagiarism file w)) = documents w).
Proof.
  split; [|split].
  - vm_compute. reflexivity.
  - rewrite post_check_plagiarism_run. reflexivity.
  - intros libs rt file w. rewrite post_check_plagiarism_run.
    cbn [fst snd status_code]. split; [discriminate|reflexivity].
Qed.

(** C2, at [essay.txt] holding "hello". *)
Lemma C2_witness :
  post_check_plagiarism (libs := Examples.libs) (rt := Examples.rt)
    Examples.essay_txt Examples.fresh_world
  = ({| status_code := 200;
        body := JObj [("similarity_score"%string, JInt 25);
                      ("filename"%string, JStr (Py.lit "essay.txt"));
                      ("status"%string, JStr (Py.lit "success"))] |},
     Examples.fresh_world).
Proof.
  apply (C2_nonblank_upload_gets_the_constant_answer
           (libs := Examples.libs) (rt := Examples.rt)
           Examples.essay_txt Examples.fresh_world).
  vm_compute. discriminate.
Defined.

(* ===================================================================== *)
(** * The claims about [nlp_engine.py]                                     *)
(* ===================================================================== *)

(** ** The similarity scorer on blank input *)

(** C4.  If either text is empty once stripped, [compute_similarity] returns
    [0.0] and the world, log included, is as before: the model's [encode] was
    applied to neither text. *)
Theorem C4_blank_input_scores_zero_without_encoding
    {libs : NlpLibs} (text1 text2 : Py.str) (w : World) :
  Py.strip text1 = [] \/ Py.strip text2 = [] ->
  compute_similarity text1 text2 w = (Done 0%R, w).
Proof.
  intros Hblank. unfold compute_similarity.
  destruct Hblank as [H|H]; rewrite H; cbn [Py.truthy negb orb].
  - reflexivity.
  - rewrite orb_true_r. reflexivity.
Qed.

(** C4, at [score("", "anything")] and [score("   ", "x")]. *)
Lemma C4_witness :
  compute_similarity (libs := Examples.libs) (Py.lit "") (Py.lit "anything")
                     Examples.fresh_world = (Done 0%R, Examples.fresh_world)
  /\ compute_similarity (libs := Examples.libs) (Py.lit "   ") (Py.lit "x")
                        Examples.fresh_world = (Done 0%R, Examples.fresh_world).
Proof.
  split.
  - apply (C4_blank_input_scores_zero_without_encoding
             (libs := Examples.libs) (Py.lit "") (Py.lit "anything")
             Examples.fresh_world).
    left. reflexivity.
  - apply (C4_blank_input_scores_zero_without_encoding
             (libs := Examples.libs) (Py.lit "   ") (Py.lit "x")
             Examples.fresh_world).
    left. reflexivity.
Defined.

(** ** The fingerprint *)

(** Reading a file block by block feeds the hash object the whole file. *)
Lemma hash_loop_feeds_everything (f : Py.bytes) (h : Sha256.hasher) :
  hash_loop f h = h ++ f.
Proof.
  funelim (hash_loop f h).
  - destruct f as [|x f]; [|discriminate].
    rewrite app_nil_r. reflexivity.
  - clear Heqcall.
    match goal with IH : hash_loop _ _ = _ |- _ => rewrite IH end.
    unfold Sha256.update.
    match goal with E : firstn _ _ = _ |- _ => rewrite <- E end.
    rewrite <- app_assoc, firstn_skipn. reflexivity.
Qed.

Lemma hex_char_is_lower_hex (n : Z) : 0 <= n < 16 -> is_lower_hex (Sha256.hex_char n).
Proof.
  intros Hn. unfold Sha256.hex_char, is_lower_hex.
  destruct (Z.ltb_spec n 10); lia.
Qed.

Lemma nibble_range (x i : Z) : 0 <= Z.land (Z.shiftr x (4 * i)) 15 < 16.
Proof.
  change 15 with (Z.ones 4). rewrite Z.land_ones by lia.
  apply Z.mod_pos_bound. reflexivity.
Qed.

Lemma hex8_length (x : Z) : length (Sha256.hex8 x) = 8%nat.
Proof. reflexivity. Qed.

Lemma hex8_is_lower_hex (x : Z) : List.Forall is_lower_hex (Sha256.hex8 x).
Proof.
  unfold Sha256.hex8.
  repeat (cbn [map]; constructor; [apply hex_char_is_lower_hex, nibble_range|]).
  constructor.
Qed.

Lemma hexdigest_length (msg : Py.bytes) : length (Sha256.hexdigest msg) = 64%nat.
Proof.
  unfold Sha256.hexdigest, Sha256.hex_of_state.
  rewrite !length_app, !hex8_length. reflexivity.
Qed.

Lemma hexdigest_is_lower_hex (msg : Py.bytes) :
  List.Forall is_lower_hex (Sha256.hexdigest msg).
Proof.
  unfold Sha256.hexdigest, Sha256.hex_of_state.
  repeat (apply List.Forall_app; split); apply hex8_is_lower_hex.
Qed.

(** [compute_file_hash] on a file that exists. *)
Lemma compute_file_hash_run (file_path : Py.str) (content : Py.bytes) (w : World) :
  files w !! file_path = Some content ->
  compute_file_hash file_path w =
    (Done (Sha256.hexdigest content),
     add_event (EvSha256 content) (add_event (EvOpenRead file_path) w)).
Proof.
  intros Hfile. unfold compute_file_hash, open_rb, emit, modify, get_world.
  unfold mbind, M_bind, mret, M_ret. cbn [files add_event]. rewrite Hfile.
  rewrite hash_loop_feeds_everything. reflexivity.
Qed.

(** C6.  The fingerprint of a file is the SHA-256 digest of its bytes: two
    files with the same bytes get the same fingerprint, whatever their paths
    and whatever else the two worlds hold (other files, the table, the log of
    earlier calls); it has 64 characters, each a digit or a letter from [a] to
    [f]. *)
Theorem C6_fingerprint_depends_on_content_only
    (B : Py.bytes) (path1 path2 : Py.str) (w1 w2 : World) :
  files w1 !! path1 = Some B ->
  files w2 !! path2 = Some B ->
  result (compute_file_hash path1 w1) = Done (Sha256.hexdigest B)
  /\ result (compute_file_hash path2 w2) = result (compute_file_hash path1 w1)
  /\ length (Sha256.hexdigest B) = 64%nat
  /\ List.Forall is_lower_hex (Sha256.hexdigest B).
Proof.
  intros H1 H2.
  rewrite (compute_file_hash_run path1 B w1 H1).
  rewrite (compute_file_hash_run path2 B w2 H2).
  unfold result. cbn [fst].
  split; [reflexivity|]. split; [reflexivity|].
  split; [apply hexdigest_length | apply hexdigest_is_lower_hex].
Qed.

(** C6, at the bytes of "abc" stored under two names in two worlds. *)
Lemma C6_witness :
  result (compute_file_hash (Py.lit "/tmp/a/paper.pdf")
            {| files := {[ Py.lit "/tmp/a/paper.pdf" := Examples.bytes_of "abc" ]};
               dirs := ∅; documents := []; log := [] |})
    = Done (Py.lit "ba7816bf8f01cfea414140de5dae2223b00361a396177a9cb410ff61f20015ad")
  /\ result (compute_file_hash (Py.lit "/var/copy.docx")
               {| files := {[ Py.lit "/var/copy.docx" := Examples.bytes_of "abc" ]};
                  dirs := {[ Py.lit "/var" ]}; documents := [];
                  log := [EvPrint (Py.lit "later")] |})
     = result (compute_file_hash (Py.lit "/tmp/a/paper.pdf")
            {| files := {[ Py.lit "/tmp/a/paper.pdf" := Examples.bytes_of "abc" ]};
               dirs := ∅; documents := []; log := [] |})
  /\ length (Sha256.hexdigest (Examples.bytes_of "abc")) = 64%nat
  /\ List.Forall is_lower_hex (Sha256.hexdigest (Examples.bytes_of "abc")).
Proof.
  apply (C6_fingerprint_depends_on_content_only
           (Examples.bytes_of "abc")
           (Py.lit "/tmp/a/paper.pdf") (Py.lit "/var/copy.docx")
           {| files := {[ Py.lit "/tmp/a/paper.pdf" := Examples.bytes_of "abc" ]};
              dirs := ∅; documents := []; log := [] |}
           {| files := {[ Py.lit "/var/copy.docx" := Examples.bytes_of "abc" ]};
              dirs := {[ Py.lit "/var" ]}; documents := [];
              log := [EvPrint (Py.lit "later")] |});
    vm_compute; reflexivity.
Defined.

(** ** The text extractor *)

Lemma lstrip_app_space (s : Py.str) (c : Z) :
  Py.isspace c = true ->
  Py.lstrip (s ++ [c]) = if forallb Py.isspace s then [] else Py.lstrip s ++ [c].
Proof.
  intros Hc. induction s as [|x s IH]; cbn [app Py.lstrip forallb].
  - rewrite Hc. reflexivity.
  - destruct (Py.isspace x); cbn [andb]; [exact IH | reflexivity].
Qed.

Lemma lstrip_all_space (s : Py.str) :
  forallb Py.isspace s = true -> Py.lstrip s = [].
Proof.
  induction s as [|x s IH]; cbn [Py.lstrip forallb]; [reflexivity|].
  destruct (Py.isspace x); cbn [andb]; [exact IH | discriminate].
Qed.

(** A trailing white character does not survive [strip]. *)
Lemma strip_app_space (s : Py.str) (c : Z) :
  Py.isspace c = true -> Py.strip (s ++ [c]) = Py.strip s.
Proof.
  intros Hc. unfold Py.strip. rewrite (lstrip_app_space s c Hc).
  destruct (forallb Py.isspace s) eqn:Hall.
  - rewrite (lstrip_all_space s Hall). reflexivity.
  - unfold Py.rstrip. rewrite rev_app_distr. cbn [rev app Py.lstrip].
    rewrite Hc. reflexivity.
Qed.

(** The loop [text += page.extract_text() + "\n"] builds the pages joined by
    newlines, with one more newline at the end. *)
Lemma pages_loop_is_join (pages : list Py.str) (acc : Py.str) :
  pages <> [] ->
  fold_left (fun text page => text ++ page ++ Py.newline) pages acc
  = acc ++ Py.join Py.newline pages ++ Py.newline.
Proof.
  revert acc. induction pages as [|p ps IH]; intros acc Hne; [congruence|].
  cbn [fold_left]. destruct ps as [|q ps].
  - cbn [fold_left Py.join]. reflexivity.
  - rewrite IH by discriminate.
    change (Py.join Py.newline (p :: q :: ps))
      with (p ++ Py.newline ++ Py.join Py.newline (q :: ps)).
    rewrite <- !app_assoc. reflexivity.
Qed.

Lemma strip_pages_loop (pages : list Py.str) :
  Py.strip (fold_left (fun text page => text ++ page ++ Py.newline) pages [])
  = Py.strip (Py.join Py.newline pages).
Proof.
  destruct pages as [|p ps]; [reflexivity|].
  rewrite pages_loop_is_join by discriminate.
  cbn [app]. apply strip_app_space. reflexivity.
Qed.

Section ExtractorFacts.
Context {libs : NlpLibs}.

Lemma load_pdf_run (file_path : Py.str) (content : Py.bytes) (w : World) :
  files w !! file_path = Some content ->
  load_pdf file_path w =
    (match PdfReader_pages content with
     | Done pages => Done (Py.strip (Py.join Py.newline pages))
     | Raised e =>
         Raised (PlainException (Py.lit "Error reading PDF file: " ++ str_of_exn e))
     end,
     add_event (EvPdfReader file_path) (add_event (EvOpenRead file_path) w)).
Proof.
  intros Hfile. unfold load_pdf, try_except, open_rb, emit, modify, get_world, raise.
  unfold mbind, M_bind, mret, M_ret. cbn [files add_event]. rewrite Hfile.
  destruct (PdfReader_pages content) as [pages|e]; [|reflexivity].
  rewrite strip_pages_loop. reflexivity.
Qed.

Lemma load_docx_run (file_path : Py.str) (content : Py.bytes) (w : World) :
  files w !! file_path = Some content ->
  load_docx file_path w =
    (match DocxDocument_paragraphs content with
     | Done paragraphs => Done (Py.strip (Py.join Py.newline paragraphs))
     | Raised e =>
         Raised (PlainException (Py.lit "Error reading DOCX file: " ++ str_of_exn e))
     end,
     add_event (EvDocxDocument file_path) w).
Proof.
  intros Hfile.
  unfold load_docx, DocxDocument, try_except, emit, modify, get_world, raise.
  unfold mbind, M_bind, mret, M_ret. cbn [files add_event]. rewrite Hfile.
  destruct (DocxDocument_paragraphs content) as [paragraphs|e]; reflexivity.
Qed.

(** C7.  [extract_text] looks at the lower-cased suffix of the path only.
    For [.pdf] it is [load_pdf]: on a readable file the texts of the pages
    joined by newlines, stripped once at the end; on a parser failure an
    [Exception] whose message starts "Error reading PDF file: ".  For [.docx]
    it is [load_docx], likewise with the paragraphs.  For any other suffix it
    raises [ValueError] and leaves the world as it was: the file was not
    opened.  [ValueError] and the parse failure are different exceptions. *)
Theorem C7_extract_text_dispatches_on_the_extension
    (file_path : Py.str) (w : World) :
  let ext := Py.lower (PathLib.suffix file_path) in
  (ext = Py.lit ".pdf" ->
     extract_text file_path w = load_pdf file_path w
     /\ forall content : Py.bytes, files w !! file_path = Some content ->
          (forall pages, PdfReader_pages content = Done pages ->
             result (extract_text file_path w)
             = Done (Py.strip (Py.join Py.newline pages)))
          /\ (forall e, PdfReader_pages content = Raised e ->
             result (extract_text file_path w)
             = Raised (PlainException
                         (Py.lit "Error reading PDF file: " ++ str_of_exn e))))
  /\ (ext = Py.lit ".docx" ->
     extract_text file_path w = load_docx file_path w
     /\ forall content : Py.bytes, files w !! file_path = Some content ->
          (forall paragraphs, DocxDocument_paragraphs content = Done paragraphs ->
             result (extract_text file_path w)
             = Done (Py.strip (Py.join Py.newline paragraphs)))
          /\ (forall e, DocxDocument_paragraphs content = Raised e ->
             result (extract_text file_path w)
             = Raised (PlainException
                         (Py.lit "Error reading DOCX file: " ++ str_of_exn e))))
  /\ (ext <> Py.lit ".pdf" -> ext <> Py.lit ".docx" ->
     extract_text file_path w
     = (Raised (ValueError (Py.lit "Unsupported file format: " ++ ext
                            ++ Py.lit ". Supported formats: .pdf, .docx")), w))
  /\ (forall m m' : Py.str, ValueError m <> PlainException m').
Proof.
  cbv zeta. split; [|split; [|split]].
  - intros Hext. unfold extract_text. rewrite Hext.
    change (Py.str_eqb (Py.lit ".pdf") (Py.lit ".pdf")) with true. cbv iota.
    split; [reflexivity|].
    intros content Hfile. rewrite (load_pdf_run _ _ _ Hfile). unfold result.
    cbn [fst]. split; intros x Hx; rewrite Hx; reflexivity.
  - intros Hext. unfold extract_text. rewrite Hext.
    change (Py.str_eqb (Py.lit ".docx") (Py.lit ".pdf")) with false.
    change (Py.str_eqb (Py.lit ".docx") (Py.lit ".docx")) with true. cbv iota.
    split; [reflexivity|].
    intros content Hfile. rewrite (load_docx_run _ _ _ Hfile). unfold result.
    cbn [fst]. split; intros x Hx; rewrite Hx; reflexivity.
  - intros Hpdf Hdocx. unfold extract_text.
    apply str_eqb_neq in Hpdf. apply str_eqb_neq in Hdocx.
    rewrite Hpdf, Hdocx. reflexivity.
  - intros m m'. discriminate.
Qed.

End ExtractorFacts.

(** C7, at [/tmp/Report.PDF] (two pages), [/tmp/broken.docx] (not a zip
    archive) and [/tmp/notes.txt]. *)
Lemma C7_witness :
  result (extract_text (libs := Examples.libs) (Py.lit "/tmp/Report.PDF")
            {| files := {[ Py.lit "/tmp/Report.PDF" := Examples.bytes_of "%PDF" ]};
               dirs := ∅; documents := []; log := [] |})
    = Done (Py.lit "Hello " ++ Py.newline ++ Py.lit "world")
  /\ result (extract_text (libs := Examples.libs) (Py.lit "/tmp/broken.docx")
               Examples.world_with_broken_docx)
     = Raised (PlainException
                 (Py.lit "Error reading DOCX file: File is not a zip file"))
  /\ extract_text (libs := Examples.libs) (Py.lit "/tmp/notes.txt")
       Examples.fresh_world
     = (Raised (ValueError
          (Py.lit "Unsupported file format: .txt. Supported formats: .pdf, .docx")),
        Examples.fresh_world).
Proof.
  split; [|split].
  - refine (proj1 (proj2 (proj1 (C7_extract_text_dispatches_on_the_extension
             (libs := Examples.libs) (Py.lit "/tmp/Report.PDF")
             {| files := {[ Py.lit "/tmp/Report.PDF" := Examples.bytes_of "%PDF" ]};
                dirs := ∅; documents := []; log := [] |}) _)
             (Examples.bytes_of "%PDF") _)
             [Py.lit " Hello "; Py.lit "world"] _);
      vm_compute; reflexivity.
  - refine (proj2 (proj2 (proj1 (proj2
             (C7_extract_text_dispatches_on_the_extension
                (libs := Examples.libs) (Py.lit "/tmp/broken.docx")
                Examples.world_with_broken_docx)) _)
             (UploadFile.content Examples.broken_docx) _)
             (LibraryError (Py.lit "File is not a zip file")) _);
      vm_compute; reflexivity.
  - refine (proj1 (proj2 (proj2
             (C7_extract_text_dispatches_on_the_extension
                (libs := Examples.libs) (Py.lit "/tmp/notes.txt")
                Examples.fresh_world))) _ _);
      vm_compute; discriminate.
Defined.

(** ** The similarity scorer on non-blank input *)

Lemma Int_part_of_integer (z : Z) : Int_part (IZR z) = z.
Proof. symmetry. apply Int_part_spec. lra. Qed.

Lemma round_half_even_of_integer (z : Z) : Numeric.round_half_even (IZR z) = z.
Proof.
  unfold Numeric.round_half_even. rewrite Int_part_of_integer.
  destruct (Rlt_dec (IZR z - IZR z) (1 / 2)) as [_|Hn]; [reflexivity|].
  exfalso. apply Hn. lra.
Qed.

Lemma normalize_unit (a : list R) :
  Numeric.dot a a = 1%R -> Numeric.normalize a = map (fun x => (x / 1)%R) a.
Proof.
  intros Hdot. unfold Numeric.normalize, Numeric.norm. rewrite Hdot, sqrt_1.
  destruct (Req_dec_T 1 0) as [Habs|_]; [lra | reflexivity].
Qed.

Section ScorerFacts.
Context {libs : NlpLibs}.

(** On two non-blank texts the scorer encodes both, in order, and returns the
    cosine of the two embeddings times 100, rounded to two places. *)
Lemma compute_similarity_run (text1 text2 : Py.str) (w : World) :
  Py.strip text1 <> [] -> Py.strip text2 <> [] ->
  model_encode text1 <> [] ->
  length (model_encode text1) = length (model_encode text2) ->
  compute_similarity text1 text2 w =
    (Done (Numeric.round2
             (Numeric.cosine_similarity (model_encode text1) (model_encode text2)
              * 100)%R),
     add_event (EvEncode text2) (add_event (EvEncode text1) w)).
Proof.
  intros H1 H2 Hne Hlen. unfold compute_similarity.
  apply truthy_true_iff in H1. apply truthy_true_iff in H2.
  rewrite H1, H2. cbn [negb orb].
  unfold emit, modify, mbind, M_bind, mret, M_ret.
  rewrite <- Hlen, Nat.eqb_refl.
  destruct (model_encode text1) as [|x e1]; [congruence|]. reflexivity.
Qed.

End ScorerFacts.

(** C5 (the code departs from the claim).  With a model that embeds "a" as
    [(1, 0)] and "b" as [(-1, 0)], the score of "a" against "b" is [-100.0]:
    the cosine is [-1], nothing clamps it, and the result is below the
    interval from 0 to 100. *)
Theorem C5_opposed_embeddings_score_minus_100 (w : World) :
  compute_similarity (libs := Examples.libs) (Py.lit "a") (Py.lit "b") w
  = (Done (-100)%R,
     add_event (EvEncode (Py.lit "b")) (add_event (EvEncode (Py.lit "a")) w))
  /\ (-100 < 0)%R.
Proof.
  split; [|lra].
  rewrite compute_similarity_run; [|vm_compute; discriminate ..|reflexivity].
  do 2 f_equal.
  change (model_encode (Py.lit "a")) with [1%R; 0%R].
  change (model_encode (Py.lit "b")) with [(-1)%R; 0%R].
  unfold Numeric.cosine_similarity.
  rewrite !normalize_unit by (cbn [Numeric.dot]; lra).
  cbn [map Numeric.dot]. unfold Numeric.round2.
  replace ((1 / 1 * (-1 / 1) + (0 / 1 * (0 / 1) + 0)) * 100 * 100)%R
    with (IZR (-10000)) by lra.
  rewrite round_half_even_of_integer. lra.
Qed.

(* ===================================================================== *)
(** * The statements after the first [try]                                 *)
(* ===================================================================== *)

(** What lines 161-250 would do if they were reached. *)

Section AfterTheTry.
Context {libs : NlpLibs} {rt : Runtime}.

(** The [finally] block never raises and does not touch the table. *)
Lemma cleanup_is_silent (temp_dir temp_file_path : Py.str) (w : World) :
  exists w', cleanup temp_dir temp_file_path w = (Done tt, w')
             /\ documents w' = documents w.
Proof.
  unfold cleanup, try_except, Os.exists_, Os.remove, Os.rmdir. run_step.
  destruct (bool_decide (is_Some (files w !! temp_file_path))
            || bool_decide (temp_file_path ∈ dirs w)).
  - destruct (files w !! temp_file_path); run_step.
    + destruct (negb (bool_decide (temp_dir ∈ dirs w))); run_step;
        [eexists; split; reflexivity|].
      destruct (negb (Os.is_empty_dir temp_dir _)); run_step;
        eexists; split; reflexivity.
    + destruct (bool_decide (temp_file_path ∈ dirs w));
        eexists; split; reflexivity.
  - run_step.
    destruct (negb (bool_decide (temp_dir ∈ dirs w))); run_step;
      [eexists; split; reflexivity|].
    destruct (negb (Os.is_empty_dir temp_dir _)); run_step;
      eexists; split; reflexivity.
Qed.

(** The body of the second [try] never gets past the lookup: either the
    staged file cannot be opened, or the name [db] is not defined. *)
Lemma pipeline_raises (file : UploadFile.t) (temp_file_path : Py.str) (w : World) :
  exists (errno : Z) (msg : Py.str) (w' : World),
    (check_plagiarism_pipeline file temp_file_path w
     = (Raised (OSError errno msg temp_file_path), w')
     \/ check_plagiarism_pipeline file temp_file_path w = (Raised (NameError msg), w'))
    /\ documents w' = documents w.
Proof.
  unfold check_plagiarism_pipeline, Os.open_wb, Os.write, UploadFile.read.
  run_step.
  destruct (bool_decide (temp_file_path ∈ dirs w)); run_step.
  { do 3 eexists. split; [left; reflexivity | reflexivity]. }
  destruct (negb (bool_decide (Os.dirname temp_file_path ∈ dirs w))); run_step.
  { do 3 eexists. split; [left; reflexivity | reflexivity]. }
  unfold compute_file_hash, open_rb. run_step.
  rewrite lookup_insert_eq. run_step.
  unfold db. run_step.
  exists 0. do 2 eexists. split; [right; reflexivity | reflexivity].
Qed.



(** X3.  With a supported suffix, lines 169-250 always end in a 500: the staged
    file cannot be opened, or [db] is not defined.  The table is not
    touched. *)
Theorem rest_with_supported_extension_ends_in_500 (file : UploadFile.t) (w : World) :
  Py.str_in (Py.lower (PathLib.suffix (UploadFile.filename file)))
            [Py.lit ".pdf"; Py.lit ".docx"] = true ->
  exists (detail : Py.str) (w' : World),
    check_plagiarism_rest file w = (Raised (HTTPException 500 detail), w')
    /\ documents w' = documents w.
Proof.
  intros Hext. unfold check_plagiarism_rest. rewrite Hext. cbn [negb].
  unfold Os.mkdtemp. run_step.
  unfold check_plagiarism_staged, try_finally, try_except.
  match goal with |- context [check_plagiarism_pipeline ?f ?p ?w0] =>
    destruct (pipeline_raises f p w0) as (errno & msg & w1 & [Hrun|Hrun] & Hdocs);
    rewrite Hrun end;
  cbn [translate_error]; unfold raise;
  match goal with |- context [cleanup ?d ?p ?w0] =>
    destruct (cleanup_is_silent d p w0) as (w2 & Hclean & Hdocs2);
    rewrite Hclean end;
  do 2 eexists; (split; [reflexivity|]); rewrite Hdocs2, Hdocs; reflexivity.
Qed.

(** X4.  When the directory [mkdtemp] makes is new and empty and the upload's name
    puts the staged file right inside it, the [finally] block removes both:
    files and directories are as before the call. *)
Theorem staging_is_cleaned_up (file : UploadFile.t) (w : World) :
  let d := mkdtemp_name w in
  let p := PathLib.join d (UploadFile.filename file) in
  Py.str_in (Py.lower (PathLib.suffix (UploadFile.filename file)))
            [Py.lit ".pdf"; Py.lit ".docx"] = true ->
  d ∉ dirs w ->
  Os.dirname p = d ->
  Os.dirname d <> d ->
  map_Forall (fun q (_ : list byte) => Os.dirname q <> d) (files w) ->
  set_Forall (fun q => Os.dirname q <> d) (dirs w) ->
  files (snd (check_plagiarism_rest file w)) = files w
  /\ dirs (snd (check_plagiarism_rest file w)) = dirs w.
Proof.
  cbv zeta. intros Hext Hfresh Hin Hself Hfiles Hdirs.
  set (d := mkdtemp_name w) in *.
  set (p := PathLib.join d (UploadFile.filename file)) in *.
  assert (Hp_nodir : p ∉ dirs w).
  { intros Hp. apply (Hdirs p Hp). exact Hin. }
  assert (Hp_nofile : files w !! p = None).
  { destruct (files w !! p) eqn:E; [|reflexivity].
    exfalso. apply (Hfiles p l E). exact Hin. }
  assert (Hpd : p <> d).
  { intros E. apply Hself. congruence. }
  unfold check_plagiarism_rest. rewrite Hext. cbn [negb].
  unfold Os.mkdtemp. run_step. fold d. fold p.
  unfold check_plagiarism_staged, try_finally, try_except.
  unfold check_plagiarism_pipeline, Os.open_wb, Os.write, UploadFile.read.
  run_step.
  assert (Hd_in : d ∈ {[d]} ∪ dirs w).
  { apply elem_of_union_l, elem_of_singleton. reflexivity. }
  assert (Hp_out : p ∉ {[d]} ∪ dirs w).
  { intros [Hx|Hx]%elem_of_union; [|contradiction].
    apply elem_of_singleton in Hx. contradiction. }
  rewrite (bool_decide_eq_false_2 _ Hp_out).
  rewrite Hin.
  rewrite (bool_decide_eq_true_2 _ Hd_in).
  cbn [negb]. run_step.
  unfold compute_file_hash, open_rb. run_step.
  rewrite lookup_insert_eq. run_step.
  unfold db. run_step. cbn [translate_error]. unfold raise.
  unfold cleanup, try_except, Os.exists_, Os.remove, Os.rmdir. run_step.
  rewrite lookup_insert_eq.
  rewrite (bool_decide_eq_true_2 (is_Some (Some _))) by eauto.
  cbn [orb]. run_step.
  rewrite lookup_insert_eq. run_step.
  rewrite (bool_decide_eq_true_2 _ Hd_in).
  cbn [negb].
  rewrite insert_insert_eq, delete_insert_eq, delete_id by assumption.
  unfold Os.is_empty_dir. run_step.
  rewrite (bool_decide_eq_true_2 _ Hfiles).
  rewrite bool_decide_eq_true_2.
  2:{ apply set_Forall_union; [|exact Hdirs].
      intros q Hq. apply elem_of_singleton in Hq. subst q. exact Hself. }
  cbn [andb negb]. run_step.
  split; [reflexivity|].
  rewrite difference_union_distr_l_L, difference_diag_L, union_empty_l_L.
  apply difference_disjoint_L, disjoint_singleton_r. exact Hfresh.
Qed.

(** X5.  The [finally] block gives up at the first failure.  When the staged
    path is a directory (the upload's name is the absolute path of one),
    [open] fails with "Is a directory", which the client is told in a 500;
    [os.remove] fails too, and [os.rmdir] is not reached: the directory made
    by [mkdtemp] stays, the log ends with the failed [os.remove]. *)
Theorem staged_directory_can_stay (file : UploadFile.t) (w : World) :
  let d := mkdtemp_name w in
  let p := PathLib.join d (UploadFile.filename file) in
  let r := check_plagiarism_rest file w in
  Py.str_in (Py.lower (PathLib.suffix (UploadFile.filename file)))
            [Py.lit ".pdf"; Py.lit ".docx"] = true ->
  p ∈ dirs w ->
  files w !! p = None ->
  fst r = Raised (HTTPException 500
            (Py.lit "Internal server error: " ++ str_of_exn (EISDIR p)))
  /\ (d ∈ dirs (snd r))
  /\ dirs (snd r) = {[d]} ∪ dirs w
  /\ files (snd r) = files w
  /\ log (snd r) = log w ++ [EvMkdtemp d; EvOpenWrite p; EvRemove p].
Proof.
  cbv zeta. intros Hext Hdir Hfile.
  set (d := mkdtemp_name w) in *.
  set (p := PathLib.join d (UploadFile.filename file)) in *.
  assert (Hp : p ∈ {[d]} ∪ dirs w) by (apply elem_of_union_r, Hdir).
  unfold check_plagiarism_rest. rewrite Hext. cbn [negb].
  unfold Os.mkdtemp. run_step. fold d. fold p.
  unfold check_plagiarism_staged, try_finally, try_except.
  unfold check_plagiarism_pipeline, Os.open_wb. run_step.
  rewrite (bool_decide_eq_true_2 _ Hp). run_step.
  cbn [translate_error EISDIR]. unfold raise.
  unfold cleanup, try_except, Os.exists_, Os.remove. run_step.
  rewrite Hfile. rewrite (bool_decide_eq_true_2 _ Hp).
  rewrite orb_true_r. run_step. rewrite Hfile.
  rewrite (bool_decide_eq_true_2 _ Hp). cbn [fst snd dirs files log add_event set_dirs].
  split; [reflexivity|].
  split; [apply elem_of_union_l, elem_of_singleton; reflexivity|].
  split; [reflexivity|]. split; [reflexivity|].
  rewrite <- !app_assoc. reflexivity.
Qed.



End AfterTheTry.

(* ===================================================================== *)
(** * Further facts                                                        *)
(* ===================================================================== *)

(** X1.  Whatever the upload, [check_plagiarism] ends inside its first [try]
    statement, by a [return]: the statements from line 148 on are never
    run. *)
Theorem statements_after_the_try_are_unreachable
    {libs : NlpLibs} {rt : Runtime} (file : UploadFile.t) (w : World) :
  exists v : json,
    check_plagiarism_try file w = (Done (Some v), w)
    /\ check_plagiarism file w = (Done (Some v), w).
Proof.
  eexists. rewrite check_plagiarism_is_its_try.
  rewrite check_plagiarism_try_returns. split; reflexivity.
Qed.

(** X3, at [paper.pdf] on a server that has just started. *)
Lemma rest_500_witness :
  exists (detail : Py.str) (w' : World),
    check_plagiarism_rest (libs := Examples.libs) (rt := Examples.rt)
      Examples.paper_pdf Examples.fresh_world
    = (Raised (HTTPException 500 detail), w')
    /\ documents w' = documents Examples.fresh_world.
Proof.
  apply (rest_with_supported_extension_ends_in_500 (libs := Examples.libs)
           (rt := Examples.rt) Examples.paper_pdf Examples.fresh_world).
  vm_compute. reflexivity.
Defined.

(** X4, at [paper.pdf] on a server that has just started: the directory is
    [/tmp/tmp0], the staged file [/tmp/tmp0/paper.pdf]. *)
Lemma staging_witness :
  files (snd (check_plagiarism_rest (libs := Examples.libs) (rt := Examples.rt)
                Examples.paper_pdf Examples.fresh_world))
  = files Examples.fresh_world
  /\ dirs (snd (check_plagiarism_rest (libs := Examples.libs) (rt := Examples.rt)
                  Examples.paper_pdf Examples.fresh_world))
     = dirs Examples.fresh_world.
Proof.
  apply (staging_is_cleaned_up (libs := Examples.libs) (rt := Examples.rt)
           Examples.paper_pdf Examples.fresh_world).
  - vm_compute. reflexivity.
  - intros Hin. apply (bool_decide_pack _) in Hin. vm_compute in Hin.
    exact Hin.
  - vm_compute. reflexivity.
  - vm_compute. discriminate.
  - apply map_Forall_empty.
  - intros q Hq. unfold Examples.fresh_world in Hq. cbn [dirs] in Hq.
    apply elem_of_singleton in Hq. subst q. vm_compute. discriminate.
Defined.



(** X5, at an upload named [/home/ada/Thesis.DOCX], a directory. *)
Lemma staged_directory_witness :
  let r := check_plagiarism_rest (libs := Examples.libs) (rt := Examples.rt)
             MoreExamples.bundle_upload MoreExamples.world_with_bundle in
  fst r = Raised (HTTPException 500
            (Py.lit "Internal server error: "
             ++ str_of_exn (EISDIR (Py.lit "/home/ada/Thesis.DOCX"))))
  /\ (Py.lit "/tmp/tmp1" ∈ dirs (snd r))
  /\ dirs (snd r) = {[ Py.lit "/tmp/tmp1" ]} ∪ dirs MoreExamples.world_with_bundle
  /\ files (snd r) = files MoreExamples.world_with_bundle
  /\ log (snd r) = log MoreExamples.world_with_bundle
                   ++ [EvMkdtemp (Py.lit "/tmp/tmp1");
                       EvOpenWrite (Py.lit "/home/ada/Thesis.DOCX");
                       EvRemove (Py.lit "/home/ada/Thesis.DOCX")].
Proof.
  apply (staged_directory_can_stay (libs := Examples.libs) (rt := Examples.rt)
           MoreExamples.bundle_upload MoreExamples.world_with_bundle).
  - vm_compute. reflexivity.
  - apply (bool_decide_unpack _). vm_compute. exact I.
  - reflexivity.
Defined.


(* ===================================================================== *)
(** * More about the handler as it runs                                    *)
(* ===================================================================== *)

Lemma all_space_strip (s : Py.str) :
  forallb Py.isspace s = true -> Py.strip s = [].
Proof.
  intros H. unfold Py.strip. rewrite (lstrip_all_space s H). reflexivity.
Qed.

Lemma decode_of_unusable_bytes (s : list Z) :
  List.Forall (fun b => never_starts_utf8 b = true
                        \/ (b < 128 /\ Py.isspace b = true)) s ->
  forallb Py.isspace (Py.utf8_decode_ignore s) = true.
Proof.
  induction 1 as [|b s Hb _ IH]; [reflexivity|].
  cbn [Py.utf8_decode_ignore].
  destruct Hb as [Hb|[Hlt Hsp]].
  - unfold never_starts_utf8 in Hb.
    destruct (Z.ltb_spec b 128); [lia|].
    destruct (Z.ltb_spec b 224).
    + destruct (Z.ltb_spec b 194); [exact IH|]. lia.
    + destruct (Z.ltb_spec b 240); [lia|].
      destruct (Z.ltb_spec b 245); [lia|]. exact IH.
  - destruct (Z.ltb_spec b 128); [|lia].
    cbn [forallb]. rewrite Hsp. exact IH.
Qed.

Lemma lstrip_keeps_nonspace (s : Py.str) (c : Z) :
  Py.isspace c = false -> In c s -> In c (Py.lstrip s).
Proof.
  intros Hc. induction s as [|x s IH]; intros Hin; [destruct Hin|].
  cbn [Py.lstrip]. destruct (Py.isspace x) eqn:Hx.
  - destruct Hin as [->|Hin]; [congruence|]. apply IH, Hin.
  - exact Hin.
Qed.

Lemma strip_keeps_nonspace (s : Py.str) (c : Z) :
  Py.isspace c = false -> In c s -> In c (Py.strip s).
Proof.
  intros Hc Hin. unfold Py.strip, Py.rstrip.
  apply in_rev. rewrite rev_involutive.
  apply lstrip_keeps_nonspace; [exact Hc|].
  apply in_rev. rewrite rev_involutive.
  apply lstrip_keeps_nonspace; assumption.
Qed.

Lemma is_cont_high (b : Z) : Py.is_cont b = true -> 128 <= b.
Proof. unfold Py.is_cont. lia. Qed.

Lemma ascii_survives_decode_bounded (n : nat) (c : Z) :
  c < 128 ->
  forall s : list Z, (length s <= n)%nat -> In c s -> In c (Py.utf8_decode_ignore s).
Proof.
  intros Hc. induction n as [|n IH]; intros s Hlen Hin.
  { destruct s; [destruct Hin | cbn in Hlen; lia]. }
  destruct s as [|ch r]; [destruct Hin|].
  cbn [length] in Hlen.
  cbn [Py.utf8_decode_ignore].
  destruct (Z.ltb_spec ch 128) as [Hch|Hch].
  { destruct Hin as [->|Hin]; [left; reflexivity|].
    right. apply IH; [lia|exact Hin]. }
  destruct Hin as [->|Hin]; [lia|].
  assert (Hr : In c (Py.utf8_decode_ignore r)) by (apply IH; [lia|exact Hin]).
  assert (Hstep : forall x r', (length r' <= n)%nat -> In c r' ->
                    In c (x :: Py.utf8_decode_ignore r')).
  { intros x r' Hl Hi. right. apply IH; assumption. }
  destruct (ch <? 224).
  { destruct (ch <? 194); [exact Hr|].
    destruct r as [|ch2 r2]; [destruct Hin|].
    destruct (Py.is_cont ch2) eqn:H2; cbn [negb]; [|exact Hr].
    apply is_cont_high in H2. cbn [length] in Hlen.
    destruct Hin as [->|Hin]; [lia|]. apply Hstep; [lia|exact Hin]. }
  destruct (ch <? 240).
  { destruct r as [|ch2 r2]; [destruct Hin|].
    destruct (Py.is_cont ch2) eqn:H2; cbn [negb orb]; [|exact Hr].
    apply is_cont_high in H2. cbn [length] in Hlen.
    destruct (if ch2 <? 160 then ch =? 224 else ch =? 237); [exact Hr|].
    destruct Hin as [->|Hin]; [lia|].
    destruct r2 as [|ch3 r3]; [destruct Hin|].
    destruct (Py.is_cont ch3) eqn:H3; cbn [negb];
      [|apply IH; [cbn [length] in *; lia|exact Hin]].
    apply is_cont_high in H3. cbn [length] in Hlen.
    destruct Hin as [->|Hin]; [lia|]. apply Hstep; [lia|exact Hin]. }
  destruct (ch <? 245); [|exact Hr].
  destruct r as [|ch2 r2]; [destruct Hin|].
  destruct (Py.is_cont ch2) eqn:H2; cbn [negb orb]; [|exact Hr].
  apply is_cont_high in H2. cbn [length] in Hlen.
  destruct (if ch2 <? 144 then ch =? 240 else ch =? 244); [exact Hr|].
  destruct Hin as [->|Hin]; [lia|].
  destruct r2 as [|ch3 r3]; [destruct Hin|].
  destruct (Py.is_cont ch3) eqn:H3; cbn [negb];
    [|apply IH; [cbn [length] in *; lia|exact Hin]].
  apply is_cont_high in H3. cbn [length] in Hlen.
  destruct Hin as [->|Hin]; [lia|].
  destruct r3 as [|ch4 r4]; [destruct Hin|].
  destruct (Py.is_cont ch4) eqn:H4; cbn [negb];
    [|apply IH; [cbn [length] in *; lia|exact Hin]].
  apply is_cont_high in H4. cbn [length] in Hlen.
  destruct Hin as [->|Hin]; [lia|]. apply Hstep; [lia|exact Hin].
Qed.

Lemma ascii_survives_decode (s : list Z) (c : Z) :
  c < 128 -> In c s -> In c (Py.utf8_decode_ignore s).
Proof.
  intros Hc. apply (ascii_survives_decode_bounded (length s) c Hc s). lia.
Qed.

Section HandlerEdges.
Context {libs : NlpLibs} {rt : Runtime}.

(** X8.  The handler gives the "empty" answer exactly when the decoded
    content is blank, and the constant success answer exactly when it is
    not; both with status 200 and the world untouched. *)
Theorem answer_is_decided_by_blankness (file : UploadFile.t) (w : World) :
  let blank := Py.strip (Py.decode (UploadFile.content file)) in
  (blank = [] <->
     post_check_plagiarism file w
     = ({| status_code := 200; body := empty_body |}, w))
  /\ (blank <> [] <->
     post_check_plagiarism file w
     = ({| status_code := 200;
           body := success_body (UploadFile.filename file) |}, w)).
Proof.
  cbv zeta. rewrite post_check_plagiarism_run.
  destruct (Py.strip (Py.decode (UploadFile.content file))) as [|c s] eqn:E;
    cbn [Py.truthy]; split; split; try congruence; try discriminate; reflexivity.
Qed.

(** X9.  An upload made only of white space and of bytes that cannot open a
    UTF-8 sequence decodes to white space at most, and is answered as
    empty. *)
Theorem undecodable_upload_is_reported_empty (file : UploadFile.t) (w : World) :
  List.Forall (fun b => never_starts_utf8 (Py.byte_val b) = true
                        \/ (Py.byte_val b < 128
                            /\ Py.isspace (Py.byte_val b) = true))
              (UploadFile.content file) ->
  post_check_plagiarism file w
  = ({| status_code := 200; body := empty_body |}, w).
Proof.
  intros Hall. rewrite post_check_plagiarism_run.
  rewrite all_space_strip; [reflexivity|].
  unfold Py.decode. apply decode_of_unusable_bytes.
  apply List.Forall_map. exact Hall.
Qed.

(** X10.  One ASCII byte that is not white space, anywhere in the upload, is
    enough for the success answer: the decoder never drops an ASCII byte and
    [strip] never removes a black character. *)
Theorem printable_ascii_byte_gives_success
    (file : UploadFile.t) (w : World) (b : byte) :
  In b (UploadFile.content file) ->
  Py.byte_val b < 128 ->
  Py.isspace (Py.byte_val b) = false ->
  post_check_plagiarism file w
  = ({| status_code := 200;
        body := success_body (UploadFile.filename file) |}, w).
Proof.
  intros Hin Hascii Hprint. rewrite post_check_plagiarism_run.
  assert (Hc : In (Py.byte_val b) (Py.strip (Py.decode (UploadFile.content file)))).
  { apply strip_keeps_nonspace; [exact Hprint|].
    unfold Py.decode. apply ascii_survives_decode; [exact Hascii|].
    apply in_map. exact Hin. }
  destruct (Py.strip (Py.decode (UploadFile.content file))); [destruct Hc|].
  reflexivity.
Qed.

End HandlerEdges.

(** X9, at six bytes none of which decodes to a black character. *)
Lemma undecodable_upload_witness :
  post_check_plagiarism (libs := Examples.libs) (rt := Examples.rt)
    MoreExamples.undecodable_upload Examples.fresh_world
  = ({| status_code := 200; body := empty_body |}, Examples.fresh_world).
Proof.
  apply (undecodable_upload_is_reported_empty (libs := Examples.libs)
           (rt := Examples.rt) MoreExamples.undecodable_upload
           Examples.fresh_world).
  repeat (constructor;
          [first [left; reflexivity | right; split; reflexivity]|]).
  constructor.
Defined.

(** X10, at [paper.pdf], whose first byte is a percent sign. *)
Lemma printable_ascii_witness :
  post_check_plagiarism (libs := Examples.libs) (rt := Examples.rt)
    Examples.paper_pdf Examples.fresh_world
  = ({| status_code := 200; body := success_body (Py.lit "paper.pdf") |},
     Examples.fresh_world).
Proof.
  apply (printable_ascii_byte_gives_success (libs := Examples.libs)
           (rt := Examples.rt) Examples.paper_pdf Examples.fresh_world x25).
  - left. reflexivity.
  - reflexivity.
  - reflexivity.
Defined.

(* ===================================================================== *)
(** * More about the text extractor and the fingerprint                    *)
(* ===================================================================== *)

Lemma lstrip_head (s : Py.str) :
  match Py.lstrip s with [] => True | c :: _ => Py.isspace c = false end.
Proof.
  induction s as [|x s IH]; cbn [Py.lstrip]; [exact I|].
  destruct (Py.isspace x) eqn:Hx; [exact IH | exact Hx].
Qed.

Lemma lstrip_fixed (s : Py.str) :
  match s with [] => True | c :: _ => Py.isspace c = false end ->
  Py.lstrip s = s.
Proof.
  destruct s as [|c s]; [reflexivity|]. intros Hc. cbn [Py.lstrip].
  rewrite Hc. reflexivity.
Qed.

Lemma lstrip_app_nonspace (x : Py.str) (c : Z) :
  Py.isspace c = false -> exists y, Py.lstrip (x ++ [c]) = y ++ [c].
Proof.
  intros Hc. induction x as [|a x IH]; cbn [app Py.lstrip].
  - rewrite Hc. exists []. reflexivity.
  - destruct (Py.isspace a); [exact IH|]. exists (a :: x). reflexivity.
Qed.

(** What [strip] returns is empty or has a black character at each end. *)
Lemma strip_ends (s : Py.str) :
  match Py.strip s with
  | [] => True
  | c :: _ => Py.isspace c = false
  end
  /\ match rev (Py.strip s) with
     | [] => True
     | c :: _ => Py.isspace c = false
     end.
Proof.
  unfold Py.strip, Py.rstrip. rewrite rev_involutive.
  split; [|apply lstrip_head].
  pose proof (lstrip_head s) as Hhead.
  destruct (Py.lstrip s) as [|c t]; [exact I|].
  cbn [rev]. destruct (lstrip_app_nonspace (rev t) c Hhead) as [y Hy].
  rewrite Hy, rev_app_distr. exact Hhead.
Qed.

Lemma strip_idempotent (s : Py.str) : Py.strip (Py.strip s) = Py.strip s.
Proof.
  destruct (strip_ends s) as [Hfirst Hlast].
  set (t := Py.strip s) in *. unfold Py.strip at 1.
  rewrite (lstrip_fixed t Hfirst). unfold Py.rstrip.
  rewrite (lstrip_fixed (rev t) Hlast). apply rev_involutive.
Qed.

Lemma join_all_space (pages : list Py.str) :
  List.Forall (fun p => forallb Py.isspace p = true) pages ->
  forallb Py.isspace (Py.join Py.newline pages) = true.
Proof.
  induction 1 as [|p ps Hp _ IH]; [reflexivity|].
  destruct ps as [|q ps]; [exact Hp|].
  change (Py.join Py.newline (p :: q :: ps))
    with (p ++ Py.newline ++ Py.join Py.newline (q :: ps)).
  rewrite !forallb_app, Hp, IH. reflexivity.
Qed.

Lemma lower_char_slash (c : Z) : (Py.lower_char c =? PathLib.slash) = (c =? PathLib.slash).
Proof.
  unfold Py.lower_char, PathLib.slash.
  destruct ((65 <=? c) && (c <=? 90)) eqn:E; [|reflexivity].
  destruct (Z.eqb_spec (c + 32) 47), (Z.eqb_spec c 47); try reflexivity; lia.
Qed.

Lemma lower_char_dot (c : Z) : (Py.lower_char c =? PathLib.dot) = (c =? PathLib.dot).
Proof.
  unfold Py.lower_char, PathLib.dot.
  destruct ((65 <=? c) && (c <=? 90)) eqn:E; [|reflexivity].
  destruct (Z.eqb_spec (c + 32) 46), (Z.eqb_spec c 46); try reflexivity; lia.
Qed.

Lemma lower_char_idempotent (c : Z) : Py.lower_char (Py.lower_char c) = Py.lower_char c.
Proof.
  unfold Py.lower_char.
  destruct ((65 <=? c) && (c <=? 90)) eqn:E; [|rewrite E; reflexivity].
  destruct ((65 <=? c + 32) && (c + 32 <=? 90)) eqn:E'; [lia | reflexivity].
Qed.

Lemma lower_idempotent (s : Py.str) : Py.lower (Py.lower s) = Py.lower s.
Proof.
  unfold Py.lower. rewrite map_map. apply map_ext. apply lower_char_idempotent.
Qed.

Lemma split_slash_lower (s cur : Py.str) :
  PathLib.split_slash (Py.lower s) (Py.lower cur)
  = map Py.lower (PathLib.split_slash s cur).
Proof.
  revert cur. induction s as [|c s IH]; intros cur.
  - cbn. unfold Py.lower. rewrite map_rev. reflexivity.
  - cbn [Py.lower map PathLib.split_slash]. rewrite lower_char_slash.
    destruct (c =? PathLib.slash).
    + cbn [map]. f_equal.
      * unfold Py.lower. rewrite map_rev. reflexivity.
      * apply (IH []).
    + apply (IH (c :: cur)).
Qed.

Lemma lower_is_nil (c : Py.str) : Py.str_eqb (Py.lower c) [] = Py.str_eqb c [].
Proof. destruct c; reflexivity. Qed.

Lemma lower_is_dot (c : Py.str) :
  Py.str_eqb (Py.lower c) [PathLib.dot] = Py.str_eqb c [PathLib.dot].
Proof.
  unfold Py.str_eqb. apply bool_decide_ext.
  destruct c as [|x [|y c]]; cbn [Py.lower map]; split; intros H;
    try discriminate; injection H as H; f_equal.
  - apply Z.eqb_eq. rewrite <- lower_char_dot. apply Z.eqb_eq, H.
  - apply Z.eqb_eq. rewrite lower_char_dot. apply Z.eqb_eq, H.
Qed.

Lemma parts_lower (p : Py.str) :
  PathLib.parts (Py.lower p) = map Py.lower (PathLib.parts p).
Proof.
  unfold PathLib.parts.
  change (PathLib.split_slash (Py.lower p) [])
    with (PathLib.split_slash (Py.lower p) (Py.lower [])).
  rewrite (split_slash_lower p []).
  induction (PathLib.split_slash p []) as [|c l IH]; [reflexivity|].
  cbn [map]. rewrite !filter_cons. rewrite lower_is_nil, lower_is_dot.
  destruct (decide _); cbn [map]; rewrite IH; reflexivity.
Qed.

Lemma last_map {A B : Type} (f : A -> B) (l : list A) (d : A) :
  List.last (map f l) (f d) = f (List.last l d).
Proof.
  induction l as [|a [|b l] IH]; try reflexivity. exact IH.
Qed.

Lemma name_lower (p : Py.str) : PathLib.name (Py.lower p) = Py.lower (PathLib.name p).
Proof.
  unfold PathLib.name. rewrite parts_lower.
  apply (last_map Py.lower (PathLib.parts p) []).
Qed.

Lemma rfind_from_lower (s : Py.str) (i best : Z) :
  PathLib.rfind_from (Py.lower s) i best = PathLib.rfind_from s i best.
Proof.
  revert i best. induction s as [|c s IH]; intros i best; [reflexivity|].
  cbn [Py.lower map PathLib.rfind_from]. rewrite lower_char_dot. apply IH.
Qed.

Lemma suffix_lower (p : Py.str) :
  PathLib.suffix (Py.lower p) = Py.lower (PathLib.suffix p).
Proof.
  unfold PathLib.suffix. rewrite name_lower.
  unfold PathLib.rfind_dot. rewrite rfind_from_lower.
  unfold Py.lower at 1. rewrite length_map.
  destruct ((0 <? _) && _); [|reflexivity].
  unfold Py.lower. rewrite skipn_map. reflexivity.
Qed.

(** A name without a dot has no suffix. *)
Lemma rfind_from_no_dot (s : Py.str) (i best : Z) :
  (forall c, In c s -> c <> PathLib.dot) -> PathLib.rfind_from s i best = best.
Proof.
  revert i best. induction s as [|c s IH]; intros i best Hno; [reflexivity|].
  cbn [PathLib.rfind_from].
  destruct (Z.eqb_spec c PathLib.dot) as [E|E].
  - exfalso. apply (Hno c); [left; reflexivity | exact E].
  - apply IH. intros x Hx. apply Hno. right. exact Hx.
Qed.

Lemma split_slash_chars (s cur comp : Py.str) (c : Z) :
  In comp (PathLib.split_slash s cur) -> In c comp -> In c s \/ In c cur.
Proof.
  revert cur. induction s as [|x s IH]; intros cur Hcomp Hc.
  - cbn in Hcomp. destruct Hcomp as [<-|[]]. right. apply in_rev. exact Hc.
  - cbn [PathLib.split_slash] in Hcomp. destruct (x =? PathLib.slash).
    + destruct Hcomp as [<-|Hcomp].
      * right. apply in_rev. exact Hc.
      * destruct (IH [] Hcomp Hc) as [H|[]]. left. right. exact H.
    + destruct (IH (x :: cur) Hcomp Hc) as [H|[<-|H]].
      * left. right. exact H.
      * left. left. reflexivity.
      * right. exact H.
Qed.

Lemma last_in_or_default {A : Type} (l : list A) (d : A) :
  List.last l d = d \/ In (List.last l d) l.
Proof.
  induction l as [|a [|b l] IH]; [left; reflexivity | right; left; reflexivity |].
  destruct IH as [IH|IH]; [left; exact IH | right; right; exact IH].
Qed.

Lemma name_chars (p : Py.str) (c : Z) : In c (PathLib.name p) -> In c p.
Proof.
  unfold PathLib.name. intros Hc.
  destruct (last_in_or_default (PathLib.parts p) []) as [E|Hin].
  - rewrite E in Hc. destruct Hc.
  - unfold PathLib.parts in Hin. apply list_elem_of_In in Hin.
    apply list_elem_of_filter in Hin. destruct Hin as [_ Hin].
    apply list_elem_of_In in Hin.
    destruct (split_slash_chars p [] _ c Hin Hc) as [H|[]]. exact H.
Qed.

Lemma suffix_without_dot (p : Py.str) :
  (forall c, In c p -> c <> PathLib.dot) -> PathLib.suffix p = [].
Proof.
  intros Hno. unfold PathLib.suffix, PathLib.rfind_dot.
  rewrite rfind_from_no_dot; [reflexivity|].
  intros c Hc. apply Hno, name_chars, Hc.
Qed.

(** A slash closes the component under way and opens the next. *)
Lemma split_slash_app (a b cur : Py.str) :
  PathLib.split_slash (a ++ PathLib.slash :: b) cur
  = PathLib.split_slash a cur ++ PathLib.split_slash b [].
Proof.
  revert cur. induction a as [|c a IH]; intros cur; cbn [app PathLib.split_slash].
  - rewrite Z.eqb_refl. reflexivity.
  - destruct (c =? PathLib.slash); [cbn [app]; f_equal|]; apply IH.
Qed.

Lemma parts_app_slash (a b : Py.str) :
  PathLib.parts (a ++ PathLib.slash :: b) = PathLib.parts a ++ PathLib.parts b.
Proof. unfold PathLib.parts. rewrite split_slash_app. apply filter_app. Qed.

Lemma last_app_nonempty {A : Type} (l1 l2 : list A) (d : A) :
  l2 <> [] -> List.last (l1 ++ l2) d = List.last l2 d.
Proof.
  intros Hne. induction l1 as [|x l1 IH]; [reflexivity|].
  cbn [app]. destruct (l1 ++ l2) eqn:E.
  - apply app_eq_nil in E as [_ E]. contradiction.
  - rewrite <- E in *. cbn [List.last]. rewrite E. rewrite <- E. exact IH.
Qed.

Lemma rev_head_is_last (a : Py.str) (l : Z) (r : Py.str) :
  rev a = l :: r -> a = rev r ++ [l].
Proof.
  intros H. rewrite <- (rev_involutive a), H. reflexivity.
Qed.

(** [os.path.join] leaves the last component of its second argument where
    it is. *)
Lemma name_join (a b : Py.str) :
  PathLib.parts b <> [] -> PathLib.name (PathLib.join a b) = PathLib.name b.
Proof.
  intros Hne.
  assert (Hcat : forall a0, PathLib.name (a0 ++ PathLib.slash :: b) = PathLib.name b).
  { intros a0. unfold PathLib.name. rewrite parts_app_slash.
    apply last_app_nonempty, Hne. }
  assert (Hrel : match rev a with
                 | [] => b
                 | l :: _ => if l =? PathLib.slash then a ++ b
                             else a ++ [PathLib.slash] ++ b
                 end = b
                 \/ exists a0, match rev a with
                    | [] => b
                    | l :: _ => if l =? PathLib.slash then a ++ b
                                else a ++ [PathLib.slash] ++ b
                    end = a0 ++ PathLib.slash :: b).
  { destruct (rev a) as [|l r] eqn:E; [left; reflexivity|]. right.
    destruct (Z.eqb_spec l PathLib.slash) as [->|_].
    - exists (rev r). rewrite (rev_head_is_last _ _ _ E), <- app_assoc. reflexivity.
    - exists a. reflexivity. }
  unfold PathLib.join. destruct b as [|c b'].
  - destruct Hrel as [->|[a0 ->]]; [reflexivity | apply Hcat].
  - destruct (c =? PathLib.slash); [reflexivity|].
    destruct Hrel as [->|[a0 ->]]; [reflexivity | apply Hcat].
Qed.

Lemma suffix_nonempty_has_parts (b : Py.str) :
  PathLib.suffix b <> [] -> PathLib.parts b <> [].
Proof.
  intros Hs Hp. apply Hs. unfold PathLib.suffix, PathLib.name. rewrite Hp.
  reflexivity.
Qed.

Lemma suffix_join (a b : Py.str) :
  PathLib.suffix b <> [] -> PathLib.suffix (PathLib.join a b) = PathLib.suffix b.
Proof.
  intros Hs. unfold PathLib.suffix.
  rewrite (name_join a b (suffix_nonempty_has_parts b Hs)). reflexivity.
Qed.

Section ExtractorEdges.
Context {libs : NlpLibs}.

(** A path that names no file: [open] fails and [load_pdf] wraps the
    failure; python-docx refuses the path, unless it is a directory. *)
Lemma load_pdf_missing (p : Py.str) (w : World) :
  files w !! p = None ->
  load_pdf p w
  = (Raised (PlainException
       (Py.lit "Error reading PDF file: "
        ++ str_of_exn (if bool_decide (p ∈ dirs w) then EISDIR p else ENOENT p))),
     add_event (EvOpenRead p) w).
Proof.
  intros H. unfold load_pdf, try_except, open_rb. run_step. rewrite H.
  destruct (bool_decide (p ∈ dirs w)); reflexivity.
Qed.

Lemma load_docx_missing (p : Py.str) (w : World) :
  files w !! p = None ->
  load_docx p w
  = (match (if bool_decide (p ∈ dirs w)
            then DocxDirectory_paragraphs p (files w)
            else Raised (LibraryError
                   (Py.lit "Package not found at '" ++ p ++ Py.lit "'"))) with
     | Done paragraphs => Done (Py.strip (Py.join Py.newline paragraphs))
     | Raised e =>
         Raised (PlainException (Py.lit "Error reading DOCX file: " ++ str_of_exn e))
     end,
     add_event (EvDocxDocument p) w).
Proof.
  intros H. unfold load_docx, DocxDocument, try_except. run_step. rewrite H.
  destruct (bool_decide (p ∈ dirs w)); [|reflexivity].
  destruct (DocxDirectory_paragraphs p (files w)); reflexivity.
Qed.

(** The two loaders end normally or with their own plain [Exception]. *)
Lemma loaders_raise_plain_exceptions (p : Py.str) (w : World) (msg : Py.str) :
  result (load_pdf p w) <> Raised (ValueError msg)
  /\ result (load_docx p w) <> Raised (ValueError msg).
Proof.
  unfold result. destruct (files w !! p) as [content|] eqn:Hfile.
  - rewrite (load_pdf_run _ _ _ Hfile), (load_docx_run _ _ _ Hfile). cbn [fst].
    destruct (PdfReader_pages content), (DocxDocument_paragraphs content);
      split; discriminate.
  - rewrite (load_pdf_missing _ _ Hfile), (load_docx_missing _ _ Hfile). cbn [fst].
    destruct (if bool_decide (p ∈ dirs w)
              then DocxDirectory_paragraphs p (files w) else _);
      split; discriminate.
Qed.

(** X11.  [extract_text] lets two kinds of exception out and no other:
    [ValueError], only for an unsupported suffix, and the plain [Exception]
    of the two loaders, whose message starts with "Error reading PDF file: "
    or "Error reading DOCX file: ".  An [OSError] or a parser's own error
    never reaches the caller as such. *)
Theorem extract_text_raises_two_kinds_only (file_path : Py.str) (w : World) :
  match result (extract_text file_path w) with
  | Done _ => True
  | Raised (ValueError _) =>
      Py.lower (PathLib.suffix file_path) <> Py.lit ".pdf"
      /\ Py.lower (PathLib.suffix file_path) <> Py.lit ".docx"
  | Raised (PlainException msg) =>
      exists cause : Py.str,
        msg = Py.lit "Error reading PDF file: " ++ cause
        \/ msg = Py.lit "Error reading DOCX file: " ++ cause
  | Raised _ => False
  end.
Proof.
  unfold extract_text.
  destruct (Py.str_eqb _ (Py.lit ".pdf")) eqn:Epdf.
  - destruct (files w !! file_path) as [content|] eqn:Hfile.
    + rewrite (load_pdf_run _ _ _ Hfile). unfold result. cbn [fst].
      destruct (PdfReader_pages content); [exact I|]. eexists. left. reflexivity.
    + rewrite (load_pdf_missing _ _ Hfile). unfold result. cbn [fst].
      eexists. left. reflexivity.
  - destruct (Py.str_eqb _ (Py.lit ".docx")) eqn:Edocx.
    + destruct (files w !! file_path) as [content|] eqn:Hfile.
      * rewrite (load_docx_run _ _ _ Hfile). unfold result. cbn [fst].
        destruct (DocxDocument_paragraphs content); [exact I|].
        eexists. right. reflexivity.
      * rewrite (load_docx_missing _ _ Hfile). unfold result. cbn [fst].
        destruct (if bool_decide (file_path ∈ dirs w)
                  then DocxDirectory_paragraphs file_path (files w)
                  else _); [exact I|].
        eexists. right. reflexivity.
    + unfold result, raise. cbn [fst].
      apply str_eqb_neq in Epdf. apply str_eqb_neq in Edocx. split; assumption.
Qed.

(** X12.  Text returned by [extract_text] is already stripped: it is empty
    or begins and ends with a character that is not white space. *)
Theorem extracted_text_is_stripped (file_path text : Py.str) (w : World) :
  result (extract_text file_path w) = Done text ->
  Py.strip text = text
  /\ match text with [] => True | c :: _ => Py.isspace c = false end
  /\ match rev text with [] => True | c :: _ => Py.isspace c = false end.
Proof.
  unfold extract_text.
  assert (Hgoal : forall s, Done (Py.strip s) = Done text ->
            Py.strip text = text
            /\ match text with [] => True | c :: _ => Py.isspace c = false end
            /\ match rev text with [] => True | c :: _ => Py.isspace c = false end).
  { intros s [= <-]. split; [apply strip_idempotent | apply strip_ends]. }
  destruct (Py.str_eqb _ (Py.lit ".pdf")).
  - destruct (files w !! file_path) as [content|] eqn:Hfile.
    + rewrite (load_pdf_run _ _ _ Hfile). unfold result. cbn [fst].
      destruct (PdfReader_pages content); [apply Hgoal | discriminate].
    + rewrite (load_pdf_missing _ _ Hfile). discriminate.
  - destruct (Py.str_eqb _ (Py.lit ".docx")).
    + destruct (files w !! file_path) as [content|] eqn:Hfile.
      * rewrite (load_docx_run _ _ _ Hfile). unfold result. cbn [fst].
        destruct (DocxDocument_paragraphs content); [apply Hgoal | discriminate].
      * rewrite (load_docx_missing _ _ Hfile). unfold result. cbn [fst].
        destruct (if bool_decide (file_path ∈ dirs w)
                  then DocxDirectory_paragraphs file_path (files w)
                  else _); [apply Hgoal | discriminate].
    + discriminate.
Qed.

(** X13.  On a path that names no file, [extract_text] does not return: it
    raises the loader's "Error reading ..." exception around the failure.
    For [.pdf] the failure is that of [open]; the file was asked for once
    and the parser was not called.  For [.docx], when the path is not a
    directory either, it is python-docx that refuses the path; the code
    itself opened nothing. *)
Theorem missing_file_is_a_read_error (file_path : Py.str) (w : World) :
  files w !! file_path = None ->
  (Py.lower (PathLib.suffix file_path) = Py.lit ".pdf" ->
     exists e : exn,
       open_rb file_path w = (Raised e, add_event (EvOpenRead file_path) w)
       /\ extract_text file_path w
          = (Raised (PlainException
               (Py.lit "Error reading PDF file: " ++ str_of_exn e)),
             add_event (EvOpenRead file_path) w))
  /\ (Py.lower (PathLib.suffix file_path) = Py.lit ".docx" ->
      file_path ∉ dirs w ->
      exists e : exn,
        DocxDocument file_path w
        = (Raised e, add_event (EvDocxDocument file_path) w)
        /\ extract_text file_path w
           = (Raised (PlainException
                (Py.lit "Error reading DOCX file: " ++ str_of_exn e)),
              add_event (EvDocxDocument file_path) w)).
Proof.
  intros Hfile. unfold extract_text. split; intros Hext; rewrite Hext.
  - change (Py.str_eqb (Py.lit ".pdf") (Py.lit ".pdf")) with true. cbv iota.
    rewrite (load_pdf_missing _ _ Hfile).
    exists (if bool_decide (file_path ∈ dirs w)
            then EISDIR file_path else ENOENT file_path).
    split; [|reflexivity].
    unfold open_rb. run_step. rewrite Hfile.
    destruct (bool_decide (file_path ∈ dirs w)); reflexivity.
  - intros Hnodir.
    change (Py.str_eqb (Py.lit ".docx") (Py.lit ".pdf")) with false.
    change (Py.str_eqb (Py.lit ".docx") (Py.lit ".docx")) with true. cbv iota.
    rewrite (load_docx_missing _ _ Hfile).
    rewrite (bool_decide_eq_false_2 _ Hnodir).
    eexists. split; [|reflexivity].
    unfold DocxDocument. run_step. rewrite Hfile.
    rewrite (bool_decide_eq_false_2 _ Hnodir). reflexivity.
Qed.

(** X2.  The validation of lines 161-167 and the dispatch of [extract_text]
    agree: joining an accepted name to the temporary directory (line 171)
    does not change its suffix, so the staged path of an accepted upload is
    sent to [load_pdf] or [load_docx], and [extract_text] never answers it
    with the [ValueError] of an unsupported format. *)
Theorem validation_agrees_with_the_extractor
    (file : UploadFile.t) (temp_dir : Py.str) (w : World) :
  let ext := Py.lower (PathLib.suffix (UploadFile.filename file)) in
  let p := PathLib.join temp_dir (UploadFile.filename file) in
  Py.str_in ext [Py.lit ".pdf"; Py.lit ".docx"] = true ->
  Py.lower (PathLib.suffix p) = ext
  /\ (ext = Py.lit ".pdf" -> extract_text p w = load_pdf p w)
  /\ (ext = Py.lit ".docx" -> extract_text p w = load_docx p w)
  /\ (forall msg, result (extract_text p w) <> Raised (ValueError msg)).
Proof.
  cbv zeta. intros Hin.
  assert (Hs : PathLib.suffix (UploadFile.filename file) <> []).
  { intros E. rewrite E in Hin. vm_compute in Hin. discriminate. }
  rewrite (suffix_join temp_dir _ Hs).
  set (ext := Py.lower (PathLib.suffix (UploadFile.filename file))) in *.
  set (p := PathLib.join temp_dir (UploadFile.filename file)).
  assert (Hkind : ext = Py.lit ".pdf" \/ ext = Py.lit ".docx").
  { unfold Py.str_in in Hin. cbn [existsb] in Hin.
    apply orb_true_iff in Hin as [H|H]; [left; apply str_eqb_eq, H|].
    apply orb_true_iff in H as [H|H]; [right; apply str_eqb_eq, H|discriminate]. }
  assert (Hrun : extract_text p w
                 = if Py.str_eqb ext (Py.lit ".pdf") then load_pdf p w
                   else if Py.str_eqb ext (Py.lit ".docx") then load_docx p w
                   else extract_text p w).
  { unfold extract_text. subst p. rewrite (suffix_join temp_dir _ Hs). fold ext.
    destruct (Py.str_eqb ext (Py.lit ".pdf")); [reflexivity|].
    destruct (Py.str_eqb ext (Py.lit ".docx")); reflexivity. }
  split; [reflexivity|]. split; [|split].
  - intros E. rewrite Hrun, E. reflexivity.
  - intros E. rewrite Hrun, E. reflexivity.
  - intros msg. rewrite Hrun.
    destruct (loaders_raise_plain_exceptions p w msg) as [Hpdf Hdocx].
    destruct Hkind as [E|E]; rewrite E; assumption.
Qed.

(** X14.  A document whose pages (or paragraphs) hold white space only, or
    that has none, is extracted to the empty text: a normal result, not an
    exception. *)
Theorem blank_document_extracts_to_empty_text
    (file_path : Py.str) (content : Py.bytes) (parts : list Py.str) (w : World) :
  files w !! file_path = Some content ->
  List.Forall (fun p => forallb Py.isspace p = true) parts ->
  (Py.lower (PathLib.suffix file_path) = Py.lit ".pdf" ->
     PdfReader_pages content = Done parts ->
     result (extract_text file_path w) = Done [])
  /\ (Py.lower (PathLib.suffix file_path) = Py.lit ".docx" ->
     DocxDocument_paragraphs content = Done parts ->
     result (extract_text file_path w) = Done []).
Proof.
  intros Hfile Hblank.
  assert (Hempty : Py.strip (Py.join Py.newline parts) = []).
  { unfold Py.strip. rewrite lstrip_all_space; [reflexivity|].
    apply join_all_space, Hblank. }
  unfold extract_text. split; intros Hext Hparse; rewrite Hext.
  - change (Py.str_eqb (Py.lit ".pdf") (Py.lit ".pdf")) with true. cbv iota.
    rewrite (load_pdf_run _ _ _ Hfile), Hparse, Hempty. reflexivity.
  - change (Py.str_eqb (Py.lit ".docx") (Py.lit ".pdf")) with false.
    change (Py.str_eqb (Py.lit ".docx") (Py.lit ".docx")) with true. cbv iota.
    rewrite (load_docx_run _ _ _ Hfile), Hparse, Hempty. reflexivity.
Qed.

(** X16.  [extract_text] and [compute_file_hash] only read: whatever they
    return or raise, files, directories and the documents table are as
    before. *)
Theorem extraction_and_hashing_only_read (file_path : Py.str) (w : World) :
  let w1 := snd (extract_text file_path w) in
  let w2 := snd (compute_file_hash file_path w) in
  (files w1 = files w /\ dirs w1 = dirs w /\ documents w1 = documents w)
  /\ (files w2 = files w /\ dirs w2 = dirs w /\ documents w2 = documents w).
Proof.
  cbv zeta. split.
  - unfold extract_text.
    destruct (Py.str_eqb _ (Py.lit ".pdf")).
    + destruct (files w !! file_path) as [content|] eqn:Hfile.
      * rewrite (load_pdf_run _ _ _ Hfile). repeat split.
      * rewrite (load_pdf_missing _ _ Hfile). repeat split.
    + destruct (Py.str_eqb _ (Py.lit ".docx")).
      * destruct (files w !! file_path) as [content|] eqn:Hfile.
        -- rewrite (load_docx_run _ _ _ Hfile). repeat split.
        -- rewrite (load_docx_missing _ _ Hfile). repeat split.
      * repeat split.
  - unfold compute_file_hash, open_rb. run_step.
    destruct (files w !! file_path); [repeat split|].
    destruct (bool_decide (file_path ∈ dirs w)); repeat split.
Qed.

(** X24.  Two paths that differ in the case of their letters only are sent
    to the same loader, or are both refused with the same message. *)
Theorem letter_case_does_not_change_the_loader (path path' : Py.str) (w : World) :
  Py.lower path = Py.lower path' ->
  (extract_text path w = load_pdf path w
   /\ extract_text path' w = load_pdf path' w)
  \/ (extract_text path w = load_docx path w
      /\ extract_text path' w = load_docx path' w)
  \/ (exists msg, extract_text path w = (Raised (ValueError msg), w)
                  /\ extract_text path' w = (Raised (ValueError msg), w)).
Proof.
  intros Hsame.
  assert (Hext : Py.lower (PathLib.suffix path) = Py.lower (PathLib.suffix path')).
  { rewrite <- (lower_idempotent (PathLib.suffix path)).
    rewrite <- (lower_idempotent (PathLib.suffix path')).
    rewrite <- !suffix_lower, Hsame. reflexivity. }
  unfold extract_text. rewrite <- Hext.
  destruct (Py.str_eqb _ (Py.lit ".pdf")); [left; split; reflexivity|].
  destruct (Py.str_eqb _ (Py.lit ".docx")); [right; left; split; reflexivity|].
  right. right. eexists. split; reflexivity.
Qed.

(** X25.  A path with no dot in it has no suffix: [extract_text] refuses it
    with [ValueError], naming an empty format, and opens nothing. *)
Theorem path_without_dot_is_unsupported (path : Py.str) (w : World) :
  (forall c, In c path -> c <> PathLib.dot) ->
  extract_text path w
  = (Raised (ValueError
       (Py.lit "Unsupported file format: . Supported formats: .pdf, .docx")), w).
Proof.
  intros Hno. unfold extract_text. rewrite (suffix_without_dot path Hno).
  reflexivity.
Qed.

End ExtractorEdges.

(** X12, at [/tmp/Report.PDF], two pages. *)
Lemma extracted_text_witness :
  Py.strip (Py.lit "Hello " ++ Py.newline ++ Py.lit "world")
  = Py.lit "Hello " ++ Py.newline ++ Py.lit "world"
  /\ match Py.lit "Hello " ++ Py.newline ++ Py.lit "world" with
     | [] => True
     | c :: _ => Py.isspace c = false
     end
  /\ match rev (Py.lit "Hello " ++ Py.newline ++ Py.lit "world") with
     | [] => True
     | c :: _ => Py.isspace c = false
     end.
Proof.
  apply (extracted_text_is_stripped (libs := Examples.libs)
           (Py.lit "/tmp/Report.PDF")
           (Py.lit "Hello " ++ Py.newline ++ Py.lit "world")
           MoreExamples.world_with_report).
  vm_compute. reflexivity.
Defined.

(** X13, at [/tmp/lost.pdf] and [/tmp/lost.docx] on a disk without files,
    with the messages in full. *)
Lemma missing_file_witness :
  ((exists e : exn,
      open_rb (Py.lit "/tmp/lost.pdf") Examples.fresh_world
      = (Raised e, add_event (EvOpenRead (Py.lit "/tmp/lost.pdf")) Examples.fresh_world)
      /\ extract_text (libs := Examples.libs) (Py.lit "/tmp/lost.pdf")
           Examples.fresh_world
         = (Raised (PlainException
              (Py.lit "Error reading PDF file: " ++ str_of_exn e)),
            add_event (EvOpenRead (Py.lit "/tmp/lost.pdf")) Examples.fresh_world))
   /\ result (extract_text (libs := Examples.libs) (Py.lit "/tmp/lost.pdf")
                Examples.fresh_world)
      = Raised (PlainException (Py.lit
          "Error reading PDF file: [Errno 2] No such file or directory: '/tmp/lost.pdf'")))
  /\ ((exists e : exn,
         DocxDocument (libs := Examples.libs) (Py.lit "/tmp/lost.docx")
           Examples.fresh_world
         = (Raised e,
            add_event (EvDocxDocument (Py.lit "/tmp/lost.docx")) Examples.fresh_world)
         /\ extract_text (libs := Examples.libs) (Py.lit "/tmp/lost.docx")
              Examples.fresh_world
            = (Raised (PlainException
                 (Py.lit "Error reading DOCX file: " ++ str_of_exn e)),
               add_event (EvDocxDocument (Py.lit "/tmp/lost.docx"))
                 Examples.fresh_world))
      /\ result (extract_text (libs := Examples.libs) (Py.lit "/tmp/lost.docx")
                   Examples.fresh_world)
         = Raised (PlainException (Py.lit
             "Error reading DOCX file: Package not found at '/tmp/lost.docx'"))).
Proof.
  split; split.
  - refine (proj1 (missing_file_is_a_read_error (libs := Examples.libs)
                     (Py.lit "/tmp/lost.pdf") Examples.fresh_world _) _);
      vm_compute; reflexivity.
  - vm_compute. reflexivity.
  - refine (proj2 (missing_file_is_a_read_error (libs := Examples.libs)
                     (Py.lit "/tmp/lost.docx") Examples.fresh_world _) _ _).
    + reflexivity.
    + vm_compute. reflexivity.
    + intros Hin. apply (bool_decide_pack _) in Hin. vm_compute in Hin. exact Hin.
  - vm_compute. reflexivity.
Defined.

(** X2, at an upload named [Thesis.DOCX] staged in [/tmp/tmp0]. *)
Lemma validation_agrees_witness :
  Py.lower (PathLib.suffix (PathLib.join (Py.lit "/tmp/tmp0") (Py.lit "Thesis.DOCX")))
  = Py.lower (PathLib.suffix (Py.lit "Thesis.DOCX"))
  /\ (Py.lower (PathLib.suffix (Py.lit "Thesis.DOCX")) = Py.lit ".pdf" ->
      extract_text (libs := Examples.libs)
        (PathLib.join (Py.lit "/tmp/tmp0") (Py.lit "Thesis.DOCX")) Examples.fresh_world
      = load_pdf (libs := Examples.libs)
          (PathLib.join (Py.lit "/tmp/tmp0") (Py.lit "Thesis.DOCX")) Examples.fresh_world)
  /\ (Py.lower (PathLib.suffix (Py.lit "Thesis.DOCX")) = Py.lit ".docx" ->
      extract_text (libs := Examples.libs)
        (PathLib.join (Py.lit "/tmp/tmp0") (Py.lit "Thesis.DOCX")) Examples.fresh_world
      = load_docx (libs := Examples.libs)
          (PathLib.join (Py.lit "/tmp/tmp0") (Py.lit "Thesis.DOCX")) Examples.fresh_world)
  /\ (forall msg,
        result (extract_text (libs := Examples.libs)
                  (PathLib.join (Py.lit "/tmp/tmp0") (Py.lit "Thesis.DOCX"))
                  Examples.fresh_world)
        <> Raised (ValueError msg)).
Proof.
  apply (validation_agrees_with_the_extractor (libs := Examples.libs)
           {| UploadFile.filename := Py.lit "Thesis.DOCX";
              UploadFile.content := Examples.bytes_of "PK" |}
           (Py.lit "/tmp/tmp0") Examples.fresh_world).
  vm_compute. reflexivity.
Defined.

(** X14, at [/tmp/scan.pdf], three blank pages. *)
Lemma blank_document_witness :
  result (extract_text (libs := MoreExamples.libs) (Py.lit "/tmp/scan.pdf")
                       MoreExamples.world_with_scan) = Done [].
Proof.
  refine (proj1 (blank_document_extracts_to_empty_text
                   (libs := MoreExamples.libs) (Py.lit "/tmp/scan.pdf")
                   (Examples.bytes_of "%PDF")
                   [Py.lit "  "; []; Py.lit " "]
                   MoreExamples.world_with_scan _ _) _ _).
  - vm_compute. reflexivity.
  - repeat (constructor; [reflexivity|]). constructor.
  - vm_compute. reflexivity.
  - reflexivity.
Defined.

(** X24, at [/tmp/Report.PDF] and [/tmp/report.pdf]. *)
Lemma letter_case_witness :
  (extract_text (libs := Examples.libs) (Py.lit "/tmp/Report.PDF")
                Examples.fresh_world
   = load_pdf (libs := Examples.libs) (Py.lit "/tmp/Report.PDF")
              Examples.fresh_world
   /\ extract_text (libs := Examples.libs) (Py.lit "/tmp/report.pdf")
                   Examples.fresh_world
      = load_pdf (libs := Examples.libs) (Py.lit "/tmp/report.pdf")
                 Examples.fresh_world)
  \/ (extract_text (libs := Examples.libs) (Py.lit "/tmp/Report.PDF")
                   Examples.fresh_world
      = load_docx (libs := Examples.libs) (Py.lit "/tmp/Report.PDF")
                  Examples.fresh_world
      /\ extract_text (libs := Examples.libs) (Py.lit "/tmp/report.pdf")
                      Examples.fresh_world
         = load_docx (libs := Examples.libs) (Py.lit "/tmp/report.pdf")
                     Examples.fresh_world)
  \/ (exists msg,
        extract_text (libs := Examples.libs) (Py.lit "/tmp/Report.PDF")
                     Examples.fresh_world
        = (Raised (ValueError msg), Examples.fresh_world)
        /\ extract_text (libs := Examples.libs) (Py.lit "/tmp/report.pdf")
                        Examples.fresh_world
           = (Raised (ValueError msg), Examples.fresh_world)).
Proof.
  apply (letter_case_does_not_change_the_loader (libs := Examples.libs)
           (Py.lit "/tmp/Report.PDF") (Py.lit "/tmp/report.pdf")
           Examples.fresh_world).
  reflexivity.
Defined.

(** X25, at [/tmp/README]. *)
Lemma path_without_dot_witness :
  extract_text (libs := Examples.libs) (Py.lit "/tmp/README") Examples.fresh_world
  = (Raised (ValueError
       (Py.lit "Unsupported file format: . Supported formats: .pdf, .docx")),
     Examples.fresh_world).
Proof.
  apply (path_without_dot_is_unsupported (libs := Examples.libs)
           (Py.lit "/tmp/README") Examples.fresh_world).
  intros c Hc. vm_compute in Hc.
  repeat (destruct Hc as [<-|Hc]; [discriminate|]). destruct Hc.
Defined.

(* ===================================================================== *)
(** * The documents table                                                  *)
(* ===================================================================== *)

Lemma find_hash_none (docs : list Document) (h : Py.str) :
  existsb (fun d => Py.str_eqb (file_hash d) h) docs = false ->
  List.find (fun d => Py.str_eqb (file_hash d) h) docs = None.
Proof.
  induction docs as [|d docs IH]; cbn [existsb List.find]; [reflexivity|].
  destruct (Py.str_eqb (file_hash d) h); cbn [orb]; [discriminate | exact IH].
Qed.

Lemma find_app_none {A : Type} (f : A -> bool) (l1 l2 : list A) :
  List.find f l1 = None -> List.find f (l1 ++ l2) = List.find f l2.
Proof.
  induction l1 as [|a l1 IH]; cbn [app List.find]; [reflexivity|].
  destruct (f a); [discriminate | exact IH].
Qed.

Lemma find_app_some {A : Type} (f : A -> bool) (l1 l2 : list A) (a : A) :
  List.find f l1 = Some a -> List.find f (l1 ++ l2) = Some a.
Proof.
  induction l1 as [|x l1 IH]; cbn [app List.find]; [discriminate|].
  destruct (f x); [auto | exact IH].
Qed.

Lemma next_id_above (docs : list Document) (d : Document) :
  In d docs -> id d < Db.next_id docs.
Proof.
  unfold Db.next_id. induction docs as [|x docs IH]; intros Hin; [destruct Hin|].
  cbn [map fold_right]. destruct Hin as [->|Hin]; [lia|].
  specialize (IH Hin). lia.
Qed.

Lemma not_in_hashes (docs : list Document) (h : Py.str) :
  existsb (fun d => Py.str_eqb (file_hash d) h) docs = false ->
  ~ In h (map file_hash docs).
Proof.
  intros Hex Hin. apply in_map_iff in Hin. destruct Hin as (d & Hd & Hin).
  assert (existsb (fun d => Py.str_eqb (file_hash d) h) docs = true); [|congruence].
  apply existsb_exists. exists d. split; [exact Hin|]. apply str_eqb_eq, Hd.
Qed.

Section Ledger.
Context {rt : Runtime}.

(** X20.  Storing a document whose hash is not in the table succeeds; the
    record has the given name and hash and the time of the clock; a lookup
    of that hash then finds this record, and the lookup of any other hash
    answers as before. *)
Theorem insert_then_lookup_finds_the_record
    (session : Db.Session) (name h : Py.str) (w : World) :
  existsb (fun d => Py.str_eqb (file_hash d) h) (documents w) = false ->
  exists (doc : Document) (w1 : World),
    Db.add_commit_refresh session name h w = (Done doc, w1)
    /\ filename doc = name /\ file_hash doc = h
    /\ upload_timestamp doc = utcnow w
    /\ documents w1 = documents w ++ [doc]
    /\ result (Db.query_first session h w1) = Done (Some doc)
    /\ (forall h', h' <> h ->
          result (Db.query_first session h' w1)
          = result (Db.query_first session h' w)).
Proof.
  intros Hfresh. unfold Db.add_commit_refresh. run_step. rewrite Hfresh.
  run_step. do 2 eexists. split; [reflexivity|].
  repeat (split; [reflexivity|]).
  unfold Db.query_first, result. run_step. split.
  - rewrite find_app_none by (apply find_hash_none, Hfresh).
    cbn [List.find file_hash].
    rewrite (proj2 (str_eqb_eq h h) eq_refl). reflexivity.
  - intros h' Hne. f_equal.
    destruct (List.find (fun d => Py.str_eqb (file_hash d) h') (documents w))
      as [d|] eqn:E.
    + apply find_app_some, E.
    + rewrite find_app_none by exact E. cbn [List.find file_hash].
      rewrite (proj2 (str_eqb_neq h h')) by congruence. reflexivity.
Qed.

(** X21.  The table keeps its keys: if no two rows share a hash and no two
    share an id, the same holds after [add_commit_refresh], whether it
    succeeds or fails; for a hash already stored it raises [IntegrityError]
    and leaves the world as it was. *)
Theorem table_keeps_hashes_and_ids_unique
    (session : Db.Session) (name h : Py.str) (w : World) :
  NoDup (map file_hash (documents w)) ->
  NoDup (map id (documents w)) ->
  let r := Db.add_commit_refresh session name h w in
  NoDup (map file_hash (documents (snd r)))
  /\ NoDup (map id (documents (snd r)))
  /\ (In h (map file_hash (documents w)) ->
        exists msg, r = (Raised (IntegrityError msg), w)).
Proof.
  intros Hh Hi. cbv zeta. unfold Db.add_commit_refresh. run_step.
  destruct (existsb (fun d => Py.str_eqb (file_hash d) h) (documents w)) eqn:Hex.
  - run_step. split; [exact Hh|]. split; [exact Hi|].
    intros _. eexists. reflexivity.
  - run_step. rewrite !map_app. cbn [map file_hash id].
    split; [|split].
    + apply NoDup_app. split; [exact Hh|]. split.
      * intros x Hx Hx'. apply list_elem_of_In in Hx, Hx'.
        destruct Hx' as [<-|[]]. exact (not_in_hashes _ _ Hex Hx).
      * apply NoDup_singleton.
    + apply NoDup_app. split; [exact Hi|]. split.
      * intros x Hx Hx'. apply list_elem_of_In in Hx, Hx'.
        destruct Hx' as [<-|[]].
        apply in_map_iff in Hx. destruct Hx as (d & Hd & Hin).
        pose proof (next_id_above _ _ Hin). lia.
      * apply NoDup_singleton.
    + intros Hin. exfalso. exact (not_in_hashes _ _ Hex Hin).
Qed.

End Ledger.

(** X20, at a table with one row and a new hash. *)
Lemma insert_then_lookup_witness :
  exists (doc : Document) (w1 : World),
    Db.add_commit_refresh (H := Examples.rt) tt (Py.lit "copy.pdf") (Py.lit "bb")
      MoreExamples.world_with_one_document = (Done doc, w1)
    /\ filename doc = Py.lit "copy.pdf" /\ file_hash doc = Py.lit "bb"
    /\ upload_timestamp doc
       = utcnow (Runtime := Examples.rt) MoreExamples.world_with_one_document
    /\ documents w1 = documents MoreExamples.world_with_one_document ++ [doc]
    /\ result (Db.query_first tt (Py.lit "bb") w1) = Done (Some doc)
    /\ (forall h', h' <> Py.lit "bb" ->
          result (Db.query_first tt h' w1)
          = result (Db.query_first tt h' MoreExamples.world_with_one_document)).
Proof.
  apply (insert_then_lookup_finds_the_record (rt := Examples.rt) tt
           (Py.lit "copy.pdf") (Py.lit "bb")
           MoreExamples.world_with_one_document).
  vm_compute. reflexivity.
Defined.

(** X21, at a table with one row and the hash of that row. *)
Lemma table_keeps_unique_witness :
  NoDup (map file_hash (documents (snd
    (Db.add_commit_refresh (H := Examples.rt) tt (Py.lit "copy.pdf")
       (Py.lit "aa") MoreExamples.world_with_one_document))))
  /\ NoDup (map id (documents (snd
    (Db.add_commit_refresh (H := Examples.rt) tt (Py.lit "copy.pdf")
       (Py.lit "aa") MoreExamples.world_with_one_document))))
  /\ (In (Py.lit "aa")
         (map file_hash (documents MoreExamples.world_with_one_document)) ->
      exists msg,
        Db.add_commit_refresh (H := Examples.rt) tt (Py.lit "copy.pdf")
          (Py.lit "aa") MoreExamples.world_with_one_document
        = (Raised (IntegrityError msg), MoreExamples.world_with_one_document)).
Proof.
  apply (table_keeps_hashes_and_ids_unique (rt := Examples.rt) tt
           (Py.lit "copy.pdf") (Py.lit "aa")
           MoreExamples.world_with_one_document).
  - cbn [documents MoreExamples.world_with_one_document map].
    apply NoDup_singleton.
  - cbn [documents MoreExamples.world_with_one_document map].
    apply NoDup_singleton.
Defined.

(* ===================================================================== *)
(** * More about the statements after the first [try]                      *)
(* ===================================================================== *)

Section AfterTheTryEdges.
Context {libs : NlpLibs} {rt : Runtime}.

(** X22.  The [finally] block never raises and only removes: after it every
    file is a file that was there with the same content, every directory was
    there, and the table is untouched. *)
Theorem cleanup_only_removes (temp_dir temp_file_path : Py.str) (w : World) :
  exists w' : World,
    cleanup temp_dir temp_file_path w = (Done tt, w')
    /\ documents w' = documents w
    /\ files w' ⊆ files w
    /\ dirs w' ⊆ dirs w.
Proof.
  unfold cleanup, try_except, Os.exists_, Os.remove, Os.rmdir. run_step.
  assert (Hrm : forall w0 : World,
            files w0 ⊆ files w -> dirs w0 = dirs w -> documents w0 = documents w ->
            exists w', (let (o, w') :=
                          (if negb (bool_decide (temp_dir ∈ dirs w0))
                           then fun w1 => (Raised (ENOENT temp_dir), w1)
                           else if negb (Os.is_empty_dir temp_dir w0)
                           then fun w1 => (Raised (ENOTEMPTY temp_dir), w1)
                           else fun w1 => (Done tt, set_dirs (dirs w0 ∖ {[temp_dir]}) w1))
                            (add_event (EvRmdir temp_dir) w0) in
                        match o with
                        | Done a => (Done a, w')
                        | Raised _ => (Done tt, w')
                        end) = (Done tt, w')
              /\ documents w' = documents w /\ files w' ⊆ files w /\ dirs w' ⊆ dirs w).
  { intros w0 Hf Hd Hdoc.
    destruct (negb (bool_decide (temp_dir ∈ dirs w0))).
    { eexists. split; [reflexivity|]. cbn [documents files dirs add_event].
      rewrite Hd. auto. }
    destruct (negb (Os.is_empty_dir temp_dir w0)).
    { eexists. split; [reflexivity|]. cbn [documents files dirs add_event].
      rewrite Hd. auto. }
    eexists. split; [reflexivity|].
    cbn [documents files dirs add_event set_dirs]. rewrite Hd.
    split; [exact Hdoc|]. split; [exact Hf|]. apply subseteq_difference_l.
    reflexivity. }
  destruct (bool_decide (is_Some (files w !! temp_file_path))
            || bool_decide (temp_file_path ∈ dirs w)).
  - destruct (files w !! temp_file_path); run_step.
    + match goal with |- context [Os.is_empty_dir temp_dir ?w0] =>
        destruct (Hrm w0) as (w' & Hrun & Hrest) end;
        [apply delete_subseteq | reflexivity | reflexivity |].
      cbn [files dirs documents set_files add_event] in Hrun.
      exists w'. split; [exact Hrun | exact Hrest].
    + destruct (bool_decide (temp_file_path ∈ dirs w));
        (eexists; split; [reflexivity|]; cbn [documents files dirs add_event];
         auto).
  - run_step.
    destruct (Hrm w) as (w' & Hrun & Hrest); [reflexivity..|].
    exists w'. split; [exact Hrun | exact Hrest].
Qed.


End AfterTheTryEdges.

